(** * The manager's bus interface (src/core/dbus-manager.c)

    A shallow embedding of the method handlers of the
    org.freedesktop.systemd1.Manager interface and of the client
    fan-out [bus_manager_foreach_client], followed by the properties
    established about them.

    The handlers are C functions returning an [int] (negative on
    failure), filling an [sd_bus_error] and mutating the [Manager].  They
    are embedded in a state monad over a [World] holding the manager, the
    error slot and the trace of the calls made to the outside (access
    checks, registry lookups, transport sends, file-system probes).  A
    failed [assert] stops the computation. *)

From Stdlib Require Import ZArith List Ascii String Bool Lia.
Import ListNotations.

#[local] Set Warnings "-register-all".

Local Open Scope string_scope.
Local Open Scope list_scope.
Local Open Scope Z_scope.

(** ** Plain data *)

(** errno values used by this file. *)
Definition ENOMEM : Z := 12.
Definition ENXIO : Z := 6.

(** A connection ([sd_bus *]) is known by its identity only. *)
Definition sd_bus := nat.

Inductive bus_error_name :=
| BUS_ERROR_NO_SUCH_UNIT
| BUS_ERROR_NO_SUCH_JOB
| BUS_ERROR_ALREADY_SUBSCRIBED
| BUS_ERROR_NOT_SUBSCRIBED
| SD_BUS_ERROR_NOT_SUPPORTED
| SD_BUS_ERROR_INVALID_ARGS.

(** Arguments handed to the printf-style format of [sd_bus_error_setf]. *)
Inductive fmt_arg :=
| ArgS (s : string)
| ArgU (n : Z).

Record sd_bus_error := mk_error {
  error_name : bus_error_name;
  error_format : string;
  error_args : list fmt_arg
}.

(** Values carried by bus messages. *)
Inductive bus_value :=
| VString (s : string)
| VObjectPath (s : string)
| VUint32 (n : Z)
| VUint64 (n : Z)
| VBool (b : bool)
| VStrv (l : list string)
| VStruct (fields : list bus_value)
| VArray (items : list bus_value).

(** An incoming method call; [body] is what is left to read. *)
Record sd_bus_message := mk_message {
  sender : string;
  body : list bus_value
}.

(** Messages built by this file: method returns and signals.  While an
    array container is open its items are collected in [open_array]. *)
Inductive out_kind :=
| MethodReturn (call : sd_bus_message)
| Signal (path interface member : string).

Record out_message := mk_out {
  kind : out_kind;
  out_body : list bus_value;
  open_array : option (list bus_value)
}.

Inductive SystemdRunningAs := SYSTEMD_SYSTEM | SYSTEMD_USER.

Inductive ManagerExitCode :=
| MANAGER_RUNNING
| MANAGER_EXIT
| MANAGER_RELOAD
| MANAGER_REEXECUTE
| MANAGER_REBOOT
| MANAGER_POWEROFF
| MANAGER_HALT
| MANAGER_KEXEC
| MANAGER_SWITCH_ROOT.

Inductive UnitType := UNIT_SERVICE | UNIT_TARGET | UNIT_SNAPSHOT | UNIT_OTHER.

Inductive JobType :=
| JOB_START | JOB_STOP | JOB_RELOAD | JOB_RESTART | JOB_TRY_RESTART.

(** [Job] and [Unit] point at each other in C; the job names its unit by
    the unit's id. *)
Record Job := mk_job {
  job_id : Z;
  job_type : JobType;
  job_unit : string
}.

(** [description], [load_state], [active_state], [sub_state] and
    [following] stand for what [unit_description], [unit_load_state_to_string],
    [unit_active_state_to_string (unit_active_state u)],
    [unit_sub_state_to_string] and [unit_following] yield for the unit. *)
Record Unit := mk_unit {
  id : string;
  type : UnitType;
  description : string;
  load_state : string;
  active_state : string;
  sub_state : string;
  following : option string;
  job : option Job
}.

(** One entry of the [subscribed] set (dbus-client-track.h). *)
Record BusTrackedClient := mk_client {
  bus : sd_bus;
  name : string
}.

(** The fields of [Manager] this file touches.  Hashmaps and sets are kept
    as lists in iteration order; [units] maps every name of a unit, its
    id and its aliases, to the unit. *)
Record Manager := mk_manager {
  running_as : SystemdRunningAs;
  exit_code : ManagerExitCode;
  units : list (string * Unit);
  jobs : list (Z * Job);
  subscribed : list BusTrackedClient;
  private_buses : list sd_bus;
  api_bus : option sd_bus;
  queued_message : option out_message;
  queued_message_bus : option sd_bus;
  switch_root : option string;
  switch_root_init : option string
}.

Inductive UnitFileScope := UNIT_FILE_SYSTEM | UNIT_FILE_USER.

Inductive UnitFileChangeType := UNIT_FILE_SYMLINK | UNIT_FILE_UNLINK.

Record UnitFileChange := mk_change {
  change_type : UnitFileChangeType;
  change_path : string;
  change_source : string
}.

(** The two shapes of [call] taken by the generic unit-file handlers:
    scope, runtime, files, [force]; the result is the [int] returned
    and the array left in [changes] ([n_changes] is its length). *)
Definition unit_file_call_force : Type :=
  UnitFileScope -> bool -> list string -> bool -> Z * list UnitFileChange.

Definition unit_file_call : Type :=
  UnitFileScope -> bool -> list string -> Z * list UnitFileChange.

(** ** Calls to the outside *)

Inductive event :=
| EvAccessCheck (b : sd_bus) (verb : string)
| EvUnitAccessCheck (unit_id : string) (b : sd_bus) (verb : string)
| EvGetUnit (unit_name : string)
| EvGetJob (id : Z)
| EvSend (b : sd_bus) (destination : option string) (msg : out_message)
| EvPathIsOsTree (root : string)
| EvAccess (path : string)
| EvSnapshotRemove (unit_id : string)
| EvInstall (files : list string).

Record World := mk_world {
  manager : Manager;
  error : option sd_bus_error;
  trace : list event
}.

Inductive outcome (A : Type) :=
| Normal (a : A)
| AssertionFailed (expr : string).

Arguments Normal {A} a.
Arguments AssertionFailed {A} expr.

Definition M (A : Type) : Type := World -> outcome A * World.

Definition ret {A} (a : A) : M A := fun w => (Normal a, w).

Definition bind {A B} (c : M A) (k : A -> M B) : M B :=
  fun w =>
    match c w with
    | (Normal a, w') => k a w'
    | (AssertionFailed e, w') => (AssertionFailed e, w')
    end.

Declare Scope bus_scope.
Delimit Scope bus_scope with bus.

Notation "x <- c ;; k" := (bind c (fun x => k))
  (at level 61, c at next level, right associativity) : bus_scope.
Notation "c ;;; k" := (bind c (fun _ => k))
  (at level 61, right associativity) : bus_scope.
(** [r = c; if (r < 0) return r; k] *)
Notation "'TRY' r <- c ;; k" :=
  (bind c (fun r => if r <? 0 then ret r else k))
  (at level 61, r name, c at next level, right associativity) : bus_scope.

Local Open Scope bus_scope.

Definition get_manager : M Manager := fun w => (Normal (manager w), w).

Definition set_manager (m : Manager) : M unit :=
  fun w => (Normal tt, mk_world m (error w) (trace w)).

Definition record (e : event) : M unit :=
  fun w => (Normal tt, mk_world (manager w) (error w) (trace w ++ [e])).

Definition assert (cond : bool) (expr : string) : M unit :=
  fun w => if cond then (Normal tt, w) else (AssertionFailed expr, w).

(** What the rest of the source tree and the libraries answer.  Every
    field is the result of the C function of the same name (suffix [_r]:
    its [int] result) on the given arguments. *)
Record Collaborators := mk_collab {
  (* selinux-access *)
  selinux_access_check_r : sd_bus -> sd_bus_message -> string -> Z;
  selinux_unit_access_check_r : string -> sd_bus -> sd_bus_message -> string -> Z;
  (* sd-bus *)
  bus_error_name_to_errno : bus_error_name -> Z;
  sd_bus_message_new_method_return_r : sd_bus_message -> Z;
  sd_bus_message_new_signal_r : sd_bus -> string -> Z;
  sd_bus_message_append_r : out_message -> list bus_value -> Z;
  sd_bus_message_open_container_r : out_message -> string -> Z;
  sd_bus_message_close_container_r : out_message -> Z;
  sd_bus_send_r : sd_bus -> option string -> out_message -> Z;
  (* dbus-unit, dbus-job *)
  unit_dbus_path : Unit -> option string;
  job_dbus_path : Job -> option string;
  job_type_to_string : JobType -> string;
  (* path-util, util, libc *)
  path_equal : string -> string -> bool;
  path_is_absolute : string -> bool;
  path_is_os_tree_r : string -> Z;
  access_X_OK_r : string -> Z;
  strdup : string -> option string;
  strappend : string -> string -> option string;
  (* dbus-snapshot *)
  bus_snapshot_method_remove_r : sd_bus -> sd_bus_message -> Unit -> Z;
  (* install *)
  unit_file_change_type_to_string : UnitFileChangeType -> string;
  unit_file_enable : unit_file_call_force;
  unit_file_reenable : unit_file_call_force;
  unit_file_link : unit_file_call_force;
  unit_file_preset : unit_file_call_force;
  unit_file_mask : unit_file_call_force;
  unit_file_disable : unit_file_call;
  unit_file_unmask : unit_file_call;
  unit_file_set_default :
    UnitFileScope -> string -> bool -> Z * list UnitFileChange
}.

Section Handlers.

Context (C : Collaborators).

(** *** sd-bus primitives *)

Definition sd_bus_error_setf (n : bus_error_name) (fmt : string)
    (args : list fmt_arg) : M Z :=
  fun w =>
    (Normal (- bus_error_name_to_errno C n),
     mk_world (manager w) (Some (mk_error n fmt args)) (trace w)).

Definition selinux_access_check (b : sd_bus) (message : sd_bus_message)
    (verb : string) : M Z :=
  record (EvAccessCheck b verb) ;;;
  ret (selinux_access_check_r C b message verb).

Definition selinux_unit_access_check (unit_id : string) (b : sd_bus)
    (message : sd_bus_message) (verb : string) : M Z :=
  record (EvUnitAccessCheck unit_id b verb) ;;;
  ret (selinux_unit_access_check_r C unit_id b message verb).

Definition sd_bus_send_to (b : sd_bus) (msg : out_message)
    (destination : option string) : M Z :=
  record (EvSend b destination msg) ;;;
  ret (sd_bus_send_r C b destination msg).

Definition sd_bus_send (b : sd_bus) (msg : out_message) : M Z :=
  sd_bus_send_to b msg None.

Definition sd_bus_message_new_signal (b : sd_bus)
    (path interface member : string) : Z * out_message :=
  (sd_bus_message_new_signal_r C b member,
   mk_out (Signal path interface member) [] None).

Definition sd_bus_message_new_method_return (call : sd_bus_message)
    : Z * out_message :=
  (sd_bus_message_new_method_return_r C call,
   mk_out (MethodReturn call) [] None).

(** Appends to the open array if there is one, to the body otherwise. *)
Definition sd_bus_message_append (msg : out_message) (vs : list bus_value)
    : Z * out_message :=
  let r := sd_bus_message_append_r C msg vs in
  if r <? 0 then (r, msg)
  else match open_array msg with
       | Some items => (r, mk_out (kind msg) (out_body msg) (Some (items ++ vs)))
       | None => (r, mk_out (kind msg) (out_body msg ++ vs) None)
       end.

Definition sd_bus_message_open_container (msg : out_message)
    (contents : string) : Z * out_message :=
  let r := sd_bus_message_open_container_r C msg contents in
  if r <? 0 then (r, msg)
  else (r, mk_out (kind msg) (out_body msg) (Some [])).

Definition sd_bus_message_close_container (msg : out_message)
    : Z * out_message :=
  let r := sd_bus_message_close_container_r C msg in
  if r <? 0 then (r, msg)
  else match open_array msg with
       | Some items => (r, mk_out (kind msg) (out_body msg ++ [VArray items]) None)
       | None => (r, msg)
       end.

(** [sd_bus_reply_method_return (message, types, ...)]: builds the return
    for [message], appends the values and sends it on the connection the
    call came in on. *)
Definition sd_bus_reply_method_return (b : sd_bus) (call : sd_bus_message)
    (vs : list bus_value) : M Z :=
  let '(r, reply) := sd_bus_message_new_method_return call in
  if r <? 0 then ret r else
  let '(r, reply) := match vs with
                     | [] => (0, reply)
                     | _ => sd_bus_message_append reply vs
                     end in
  if r <? 0 then ret r else
  sd_bus_send b reply.

(** Typed reads of the next argument(s) of a call; the message comes back
    advanced. *)
Definition sd_bus_message_read_s (message : sd_bus_message)
    : Z * string * sd_bus_message :=
  match body message with
  | VString s :: rest => (1, s, mk_message (sender message) rest)
  | _ => (- ENXIO, "", message)
  end.

Definition sd_bus_message_read_u (message : sd_bus_message)
    : Z * Z * sd_bus_message :=
  match body message with
  | VUint32 n :: rest => (1, n, mk_message (sender message) rest)
  | _ => (- ENXIO, 0, message)
  end.

Definition sd_bus_message_read_b (message : sd_bus_message)
    : Z * bool * sd_bus_message :=
  match body message with
  | VBool v :: rest => (1, v, mk_message (sender message) rest)
  | _ => (- ENXIO, false, message)
  end.

Definition sd_bus_message_read_strv (message : sd_bus_message)
    : Z * list string * sd_bus_message :=
  match body message with
  | VStrv l :: rest => (1, l, mk_message (sender message) rest)
  | _ => (- ENXIO, [], message)
  end.

Definition sd_bus_message_get_sender (message : sd_bus_message) : string :=
  sender message.

(** *** util *)

Definition isempty (s : string) : bool :=
  match s with
  | EmptyString => true
  | _ => false
  end.

Definition set_size {A} (s : list A) : Z := Z.of_nat (List.length s).

Definition set_first {A} (s : list A) : option A := hd_error s.

(** *** The client fan-out *)

Definition send_message_t := sd_bus -> option string -> M Z.

(** [SET_FOREACH (b, m->private_buses, i)] with its body. *)
Fixpoint foreach_private_bus (send_message : send_message_t)
    (buses : list sd_bus) (rest : M Z) : M Z :=
  match buses with
  | [] => rest
  | b :: buses' =>
      r <- send_message b None ;;
      if r <? 0 then ret r
      else foreach_private_bus send_message buses' rest
  end.

Definition bus_manager_foreach_client (send_message : send_message_t) : M Z :=
  m <- get_manager ;;
  let n := set_size (subscribed m) in
  if n <=? 0 then ret 0 else
  if n =? 1 then
    match set_first (subscribed m) with
    | Some d =>
        send_message (bus d) (if isempty (name d) then None else Some (name d))
    | None => _ <- assert false "d = set_first(m->subscribed)" ;; ret 0
    end
  else
    (* Send to everybody *)
    foreach_private_bus send_message (private_buses m)
      (match api_bus m with
       | Some b => send_message b None
       | None => ret 0
       end).

(** *** Registry lookups (manager.c, hashmap.c) *)

Fixpoint hashmap_get {V} (h : list (string * V)) (k : string) : option V :=
  match h with
  | [] => None
  | (k', v) :: h' => if String.eqb k' k then Some v else hashmap_get h' k
  end.

Fixpoint hashmap_get_u32 {V} (h : list (Z * V)) (k : Z) : option V :=
  match h with
  | [] => None
  | (k', v) :: h' => if k' =? k then Some v else hashmap_get_u32 h' k
  end.

Definition manager_get_unit (unit_name : string) : M (option Unit) :=
  record (EvGetUnit unit_name) ;;;
  m <- get_manager ;;
  ret (hashmap_get (units m) unit_name).

Definition manager_get_job (id : Z) : M (option Job) :=
  record (EvGetJob id) ;;;
  m <- get_manager ;;
  ret (hashmap_get_u32 (jobs m) id).

(** *** Field updates of the manager *)

Definition set_exit_code (m : Manager) (c : ManagerExitCode) : Manager :=
  mk_manager (running_as m) c (units m) (jobs m) (subscribed m)
    (private_buses m) (api_bus m) (queued_message m) (queued_message_bus m)
    (switch_root m) (switch_root_init m).

Definition set_subscribed (m : Manager) (s : list BusTrackedClient) : Manager :=
  mk_manager (running_as m) (exit_code m) (units m) (jobs m) s
    (private_buses m) (api_bus m) (queued_message m) (queued_message_bus m)
    (switch_root m) (switch_root_init m).

Definition set_queued_message (m : Manager) (q : option out_message)
    (b : option sd_bus) : Manager :=
  mk_manager (running_as m) (exit_code m) (units m) (jobs m) (subscribed m)
    (private_buses m) (api_bus m) q b (switch_root m) (switch_root_init m).

Definition set_switch_root (m : Manager) (rt ri : option string) : Manager :=
  mk_manager (running_as m) (exit_code m) (units m) (jobs m) (subscribed m)
    (private_buses m) (api_bus m) (queued_message m) (queued_message_bus m)
    rt ri.

Definition is_system (m : Manager) : bool :=
  match running_as m with
  | SYSTEMD_SYSTEM => true
  | SYSTEMD_USER => false
  end.

(** *** Method handlers *)

Definition handler := sd_bus -> sd_bus_message -> M Z.

Definition method_get_unit : handler := fun bus message =>
  let '(r, name, message) := sd_bus_message_read_s message in
  if r <? 0 then ret r else
  u <- manager_get_unit name ;;
  match u with
  | None =>
      sd_bus_error_setf BUS_ERROR_NO_SUCH_UNIT "Unit %s not loaded." [ArgS name]
  | Some u =>
      TRY r <- selinux_unit_access_check (id u) bus message "status" ;;
      match unit_dbus_path C u with
      | None => ret (- ENOMEM)
      | Some path => sd_bus_reply_method_return bus message [VObjectPath path]
      end
  end.

Definition method_get_job : handler := fun bus message =>
  let '(r, id, message) := sd_bus_message_read_u message in
  if r <? 0 then ret r else
  j <- manager_get_job id ;;
  match j with
  | None =>
      sd_bus_error_setf BUS_ERROR_NO_SUCH_JOB "Job %u does not exist." [ArgU id]
  | Some j =>
      TRY r <- selinux_unit_access_check (job_unit j) bus message "status" ;;
      match job_dbus_path C j with
      | None => ret (- ENOMEM)
      | Some path => sd_bus_reply_method_return bus message [VObjectPath path]
      end
  end.

(** The tuple "(ssssssouso)" appended for one unit. *)
Definition unit_tuple (u : Unit) (unit_path : string)
    (job_path : option string) : bus_value :=
  VStruct
    [ VString (id u);
      VString (description u);
      VString (load_state u);
      VString (active_state u);
      VString (sub_state u);
      VString (match following u with Some f => f | None => "" end);
      VObjectPath unit_path;
      VUint32 (match job u with Some j => job_id j | None => 0 end);
      VString (match job u with
               | Some j => job_type_to_string C (job_type j)
               | None => ""
               end);
      VObjectPath (match job_path with Some p => p | None => "/" end) ].

(** [HASHMAP_FOREACH_KEY (u, k, m->units, i)] with its body.  The C test
    [k != u->id] compares pointers: the key of the entry made for the
    unit's id is the very string [u->id] points to, the keys of its other
    names are other strings; here the names themselves are compared. *)
Fixpoint list_units_foreach (entries : list (string * Unit))
    (reply : out_message) : Z * out_message :=
  match entries with
  | [] => (0, reply)
  | (k, u) :: entries' =>
      if negb (String.eqb k (id u)) then list_units_foreach entries' reply
      else
        match unit_dbus_path C u with
        | None => (- ENOMEM, reply)
        | Some unit_path =>
            match job u with
            | Some j =>
                match job_dbus_path C j with
                | None => (- ENOMEM, reply)
                | Some job_path =>
                    let '(r, reply) :=
                      sd_bus_message_append reply
                        [unit_tuple u unit_path (Some job_path)] in
                    if r <? 0 then (r, reply)
                    else list_units_foreach entries' reply
                end
            | None =>
                let '(r, reply) :=
                  sd_bus_message_append reply [unit_tuple u unit_path None] in
                if r <? 0 then (r, reply)
                else list_units_foreach entries' reply
            end
        end
  end.

Definition method_list_units : handler := fun bus message =>
  TRY r <- selinux_access_check bus message "status" ;;
  let '(r, reply) := sd_bus_message_new_method_return message in
  if r <? 0 then ret r else
  let '(r, reply) := sd_bus_message_open_container reply "(ssssssouso)" in
  if r <? 0 then ret r else
  m <- get_manager ;;
  let '(r, reply) := list_units_foreach (units m) reply in
  if r <? 0 then ret r else
  let '(r, reply) := sd_bus_message_close_container reply in
  if r <? 0 then ret r else
  sd_bus_send bus reply.

(** Membership in the [subscribed] set: same connection, same peer name. *)
Definition same_client (b : sd_bus) (n : string) (d : BusTrackedClient) : bool :=
  Nat.eqb (bus d) b && String.eqb (name d) n.

(** Modelled from the spec: [bus_client_track] of dbus-client-track.c, which
    is not among the sources.  The spec's [subscribe(endpoint)] "adds
    endpoint to the set" and faults "if already present"; the handler
    below maps the result 0 to that fault, so 0 is "already present, set
    left as it was" and a positive result is "added". *)
Definition bus_client_track (b : sd_bus) (n : string) : M Z :=
  m <- get_manager ;;
  if existsb (same_client b n) (subscribed m) then ret 0
  else
    set_manager (set_subscribed m (subscribed m ++ [mk_client b n])) ;;;
    ret 1.

(** Modelled from the spec: [bus_client_untrack] of dbus-client-track.c,
    which is not among the sources.  The spec's [unsubscribe(endpoint)]
    "removes endpoint" and faults "if absent"; the handler below maps
    the result 0 to that fault. *)
Definition bus_client_untrack (b : sd_bus) (n : string) : M Z :=
  m <- get_manager ;;
  if existsb (same_client b n) (subscribed m) then
    set_manager
      (set_subscribed m
         (filter (fun d => negb (same_client b n d)) (subscribed m))) ;;;
    ret 1
  else ret 0.

Definition method_subscribe : handler := fun bus message =>
  TRY r <- selinux_access_check bus message "status" ;;
  r <- bus_client_track bus (sd_bus_message_get_sender message) ;;
  if r <? 0 then ret r else
  if r =? 0 then
    sd_bus_error_setf BUS_ERROR_ALREADY_SUBSCRIBED
      "Client is already subscribed." []
  else sd_bus_reply_method_return bus message [].

Definition method_unsubscribe : handler := fun bus message =>
  TRY r <- selinux_access_check bus message "status" ;;
  r <- bus_client_untrack bus (sd_bus_message_get_sender message) ;;
  if r <? 0 then ret r else
  if r =? 0 then
    sd_bus_error_setf BUS_ERROR_NOT_SUBSCRIBED "Client is not subscribed." []
  else sd_bus_reply_method_return bus message [].

Definition bus_snapshot_method_remove (b : sd_bus) (message : sd_bus_message)
    (u : Unit) : M Z :=
  record (EvSnapshotRemove (id u)) ;;;
  ret (bus_snapshot_method_remove_r C b message u).

Definition method_remove_snapshot : handler := fun bus message =>
  TRY r <- selinux_access_check bus message "stop" ;;
  let '(r, name, message) := sd_bus_message_read_s message in
  if r <? 0 then ret r else
  u <- manager_get_unit name ;;
  match u with
  | None =>
      sd_bus_error_setf BUS_ERROR_NO_SUCH_UNIT "Unit %s does not exist."
        [ArgS name]
  | Some u =>
      match type u with
      | UNIT_SNAPSHOT => bus_snapshot_method_remove bus message u
      | _ =>
          sd_bus_error_setf BUS_ERROR_NO_SUCH_UNIT "Unit %s is not a snapshot"
            [ArgS name]
      end
  end.

Definition method_reload : handler := fun bus message =>
  TRY r <- selinux_access_check bus message "reload" ;;
  (* Instead of sending the reply back right away, we just remember that
     we need to and then send it after the reload is finished. *)
  m <- get_manager ;;
  assert (match queued_message m with None => true | Some _ => false end)
    "!m->queued_message" ;;;
  let '(r, reply) := sd_bus_message_new_method_return message in
  if r <? 0 then ret r else
  set_manager
    (set_exit_code (set_queued_message m (Some reply) (Some bus))
       MANAGER_RELOAD) ;;;
  ret 1.

Definition method_reexecute : handler := fun bus message =>
  TRY r <- selinux_access_check bus message "reload" ;;
  (* We don't send a reply back here, the client should just wait for us
     disconnecting. *)
  m <- get_manager ;;
  set_manager (set_exit_code m MANAGER_REEXECUTE) ;;;
  ret 1.

Definition method_exit : handler := fun bus message =>
  TRY r <- selinux_access_check bus message "halt" ;;
  m <- get_manager ;;
  if is_system m then
    sd_bus_error_setf SD_BUS_ERROR_NOT_SUPPORTED
      "Exit is only supported for user service managers." []
  else
    set_manager (set_exit_code m MANAGER_EXIT) ;;;
    sd_bus_reply_method_return bus message [].

Definition method_reboot : handler := fun bus message =>
  TRY r <- selinux_access_check bus message "reboot" ;;
  m <- get_manager ;;
  if negb (is_system m) then
    sd_bus_error_setf SD_BUS_ERROR_NOT_SUPPORTED
      "Reboot is only supported for system managers." []
  else
    set_manager (set_exit_code m MANAGER_REBOOT) ;;;
    sd_bus_reply_method_return bus message [].

Definition method_poweroff : handler := fun bus message =>
  TRY r <- selinux_access_check bus message "halt" ;;
  m <- get_manager ;;
  if negb (is_system m) then
    sd_bus_error_setf SD_BUS_ERROR_NOT_SUPPORTED
      "Powering off is only supported for system managers." []
  else
    set_manager (set_exit_code m MANAGER_POWEROFF) ;;;
    sd_bus_reply_method_return bus message [].

Definition method_halt : handler := fun bus message =>
  TRY r <- selinux_access_check bus message "halt" ;;
  m <- get_manager ;;
  if negb (is_system m) then
    sd_bus_error_setf SD_BUS_ERROR_NOT_SUPPORTED
      "Halt is only supported for system managers." []
  else
    set_manager (set_exit_code m MANAGER_HALT) ;;;
    sd_bus_reply_method_return bus message [].

Definition method_kexec : handler := fun bus message =>
  TRY r <- selinux_access_check bus message "reboot" ;;
  m <- get_manager ;;
  if negb (is_system m) then
    sd_bus_error_setf SD_BUS_ERROR_NOT_SUPPORTED
      "KExec is only supported for system managers." []
  else
    set_manager (set_exit_code m MANAGER_KEXEC) ;;;
    sd_bus_reply_method_return bus message [].

Definition sd_bus_message_read_ss (message : sd_bus_message)
    : Z * string * string * sd_bus_message :=
  match body message with
  | VString a :: VString b :: rest =>
      (1, a, b, mk_message (sender message) rest)
  | _ => (- ENXIO, "", "", message)
  end.

Definition sd_bus_message_read_sb (message : sd_bus_message)
    : Z * string * bool * sd_bus_message :=
  match body message with
  | VString a :: VBool b :: rest =>
      (1, a, b, mk_message (sender message) rest)
  | _ => (- ENXIO, "", false, message)
  end.

Definition sd_bus_message_read_bb (message : sd_bus_message)
    : Z * bool * bool * sd_bus_message :=
  match body message with
  | VBool a :: VBool b :: rest =>
      (1, a, b, mk_message (sender message) rest)
  | _ => (- ENXIO, false, false, message)
  end.

Definition path_is_os_tree (root : string) : M Z :=
  record (EvPathIsOsTree root) ;;;
  ret (path_is_os_tree_r C root).

Definition access_X_OK (p : string) : M Z :=
  record (EvAccess p) ;;;
  ret (access_X_OK_r C p).

(** The tail of [method_switch_root], from [rt = strdup(root)] on. *)
Definition switch_root_commit (bus : sd_bus) (message : sd_bus_message)
    (root init : string) : M Z :=
  match strdup C root with
  | None => ret (- ENOMEM)
  | Some rt =>
      let store (ri : option string) : M Z :=
        m <- get_manager ;;
        set_manager (set_switch_root m (Some rt) ri) ;;;
        sd_bus_reply_method_return bus message [] in
      if negb (isempty init) then
        match strdup C init with
        | None => ret (- ENOMEM)
        | Some ri => store (Some ri)
        end
      else store None
  end.

Definition method_switch_root : handler := fun bus message =>
  TRY r <- selinux_access_check bus message "reboot" ;;
  m <- get_manager ;;
  if negb (is_system m) then
    sd_bus_error_setf SD_BUS_ERROR_NOT_SUPPORTED
      "KExec is only supported for system managers." []
  else
  let '(r, root, init, message) := sd_bus_message_read_ss message in
  if r <? 0 then ret r else
  if path_equal C root "/" || negb (path_is_absolute C root) then
    sd_bus_error_setf SD_BUS_ERROR_INVALID_ARGS "Invalid switch root path %s"
      [ArgS root]
  else
  (* Safety check *)
  if isempty init then
    t <- path_is_os_tree root ;;
    if t =? 0 then
      sd_bus_error_setf SD_BUS_ERROR_INVALID_ARGS
        "Specified switch root path %s does not seem to be an OS tree. /etc/os-release is missing."
        [ArgS root]
    else switch_root_commit bus message root init
  else
    if negb (path_is_absolute C init) then
      sd_bus_error_setf SD_BUS_ERROR_INVALID_ARGS "Invalid init path %s"
        [ArgS init]
    else
      match strappend C root init with
      | None => ret (- ENOMEM)
      | Some p =>
          a <- access_X_OK p ;;
          if a <? 0 then
            sd_bus_error_setf SD_BUS_ERROR_INVALID_ARGS
              "Specified init binary %s does not exist." [ArgS p]
          else switch_root_commit bus message root init
      end.

(** *** Unit-file methods *)

Definition send_unit_files_changed : send_message_t := fun bus destination =>
  let '(r, message) :=
    sd_bus_message_new_signal bus "/org/freedesktop/systemd1"
      "org.freedesktop.systemd1.Manager" "UnitFilesChanged" in
  if r <? 0 then ret r else
  sd_bus_send_to bus message destination.

Definition send_reloading (active : bool) : send_message_t :=
  fun bus destination =>
  let '(r, message) :=
    sd_bus_message_new_signal bus "/org/freedesktop/systemd1"
      "org.freedesktop.systemd1.Manager" "Reloading" in
  if r <? 0 then ret r else
  let '(r, message) := sd_bus_message_append message [VBool active] in
  if r <? 0 then ret r else
  sd_bus_send_to bus message destination.

Definition bus_manager_send_reloading (active : bool) : M Z :=
  bus_manager_foreach_client (send_reloading active).

(** [for (i = 0; i < n_changes; i++)] with its body. *)
Fixpoint append_changes (changes : list UnitFileChange)
    (reply : out_message) : Z * out_message :=
  match changes with
  | [] => (0, reply)
  | c :: changes' =>
      let '(r, reply) :=
        sd_bus_message_append reply
          [VStruct [ VString (unit_file_change_type_to_string C (change_type c));
                     VString (change_path c);
                     VString (change_source c) ]] in
      if r <? 0 then (r, reply) else append_changes changes' reply
  end.

Definition reply_unit_file_changes_and_free (bus : sd_bus)
    (message : sd_bus_message) (carries_install_info : Z)
    (changes : list UnitFileChange) : M Z :=
  let n_changes := Z.of_nat (List.length changes) in
  (if 0 <? n_changes
   then bus_manager_foreach_client send_unit_files_changed
   else ret 0) ;;;
  let '(r, reply) := sd_bus_message_new_method_return message in
  if r <? 0 then ret r else
  let '(r, reply) :=
    if 0 <=? carries_install_info
    then sd_bus_message_append reply
           [VBool (negb (carries_install_info =? 0))]
    else (0, reply) in
  if r <? 0 then ret r else
  let '(r, reply) := sd_bus_message_open_container reply "(sss)" in
  if r <? 0 then ret r else
  let '(r, reply) := append_changes changes reply in
  if r <? 0 then ret r else
  let '(r, reply) := sd_bus_message_close_container reply in
  if r <? 0 then ret r else
  sd_bus_send bus reply.

Definition scope_of (m : Manager) : UnitFileScope :=
  if is_system m then UNIT_FILE_SYSTEM else UNIT_FILE_USER.

Definition method_enable_unit_files_generic (bus : sd_bus)
    (message : sd_bus_message) (verb : string) (call : unit_file_call_force)
    (carries_install_info : bool) : M Z :=
  TRY r <- selinux_access_check bus message verb ;;
  let '(r, l, message) := sd_bus_message_read_strv message in
  if r <? 0 then ret r else
  let '(r, runtime, force, message) := sd_bus_message_read_bb message in
  if r <? 0 then ret r else
  m <- get_manager ;;
  let scope := scope_of m in
  record (EvInstall l) ;;;
  let '(r, changes) := call scope runtime l force in
  if r <? 0 then ret r else
  reply_unit_file_changes_and_free bus message
    (if carries_install_info then r else -1) changes.

Definition method_enable_unit_files : handler := fun bus message =>
  method_enable_unit_files_generic bus message "enable"
    (unit_file_enable C) true.

Definition method_reenable_unit_files : handler := fun bus message =>
  method_enable_unit_files_generic bus message "enable"
    (unit_file_reenable C) true.

Definition method_link_unit_files : handler := fun bus message =>
  method_enable_unit_files_generic bus message "enable"
    (unit_file_link C) false.

Definition method_preset_unit_files : handler := fun bus message =>
  method_enable_unit_files_generic bus message "enable"
    (unit_file_preset C) true.

Definition method_mask_unit_files : handler := fun bus message =>
  method_enable_unit_files_generic bus message "disable"
    (unit_file_mask C) false.

Definition method_disable_unit_files_generic (bus : sd_bus)
    (message : sd_bus_message) (verb : string) (call : unit_file_call)
    : M Z :=
  TRY r <- selinux_access_check bus message verb ;;
  let '(r, l, message) := sd_bus_message_read_strv message in
  if r <? 0 then ret r else
  let '(r, runtime, message) := sd_bus_message_read_b message in
  if r <? 0 then ret r else
  m <- get_manager ;;
  let scope := scope_of m in
  record (EvInstall l) ;;;
  let '(r, changes) := call scope runtime l in
  if r <? 0 then ret r else
  reply_unit_file_changes_and_free bus message (-1) changes.

Definition method_disable_unit_files : handler := fun bus message =>
  method_disable_unit_files_generic bus message "disable"
    (unit_file_disable C).

Definition method_unmask_unit_files : handler := fun bus message =>
  method_disable_unit_files_generic bus message "enable"
    (unit_file_unmask C).

Definition method_set_default_target : handler := fun bus message =>
  TRY r <- selinux_access_check bus message "enable" ;;
  let '(r, name, force, message) := sd_bus_message_read_sb message in
  if r <? 0 then ret r else
  m <- get_manager ;;
  let scope := scope_of m in
  record (EvInstall [name]) ;;;
  let '(r, changes) := unit_file_set_default C scope name force in
  if r <? 0 then ret r else
  reply_unit_file_changes_and_free bus message (-1) changes.


End Handlers.

(** ** Concrete collaborators and managers

    Stand-ins for the rest of the tree, used to run the handlers on
    concrete requests: [collaborators_of access send] answers every access
    check with [access], every transport send on connection [b] with
    [send b], and lets everything else succeed. *)

Definition job_type_name (t : JobType) : string :=
  match t with
  | JOB_START => "start"
  | JOB_STOP => "stop"
  | JOB_RELOAD => "reload"
  | JOB_RESTART => "restart"
  | JOB_TRY_RESTART => "try-restart"
  end.

Definition change_type_name (t : UnitFileChangeType) : string :=
  match t with
  | UNIT_FILE_SYMLINK => "symlink"
  | UNIT_FILE_UNLINK => "unlink"
  end.

Definition errno_of (n : bus_error_name) : Z :=
  match n with
  | BUS_ERROR_NO_SUCH_UNIT => 2
  | BUS_ERROR_NO_SUCH_JOB => 2
  | BUS_ERROR_ALREADY_SUBSCRIBED => 114
  | BUS_ERROR_NOT_SUBSCRIBED => 22
  | SD_BUS_ERROR_NOT_SUPPORTED => 95
  | SD_BUS_ERROR_INVALID_ARGS => 22
  end.

Definition starts_with_slash (s : string) : bool :=
  match s with
  | String c _ => Ascii.eqb c "/"%char
  | EmptyString => false
  end.

Definition link_each (files : list string) : list UnitFileChange :=
  map (fun f => mk_change UNIT_FILE_SYMLINK
                  (String.append "/etc/systemd/system/" f)
                  (String.append "/usr/lib/systemd/system/" f))
      files.

Definition collaborators_of (access : Z) (send : sd_bus -> Z) : Collaborators :=
  {| selinux_access_check_r := fun _ _ _ => access;
     selinux_unit_access_check_r := fun _ _ _ _ => access;
     bus_error_name_to_errno := errno_of;
     sd_bus_message_new_method_return_r := fun _ => 0;
     sd_bus_message_new_signal_r := fun _ _ => 0;
     sd_bus_message_append_r := fun _ _ => 0;
     sd_bus_message_open_container_r := fun _ _ => 0;
     sd_bus_message_close_container_r := fun _ => 0;
     sd_bus_send_r := fun b _ _ => send b;
     unit_dbus_path :=
       fun u => Some (String.append "/org/freedesktop/systemd1/unit/" (id u));
     job_dbus_path :=
       fun j => Some (String.append "/org/freedesktop/systemd1/job/"
                        (job_unit j));
     job_type_to_string := job_type_name;
     path_equal := String.eqb;
     path_is_absolute := starts_with_slash;
     path_is_os_tree_r := fun _ => 1;
     access_X_OK_r := fun _ => 0;
     strdup := fun s => Some s;
     strappend := fun a b => Some (String.append a b);
     bus_snapshot_method_remove_r := fun _ _ _ => 0;
     unit_file_change_type_to_string := change_type_name;
     unit_file_enable := fun _ _ l _ => (1, link_each l);
     unit_file_reenable := fun _ _ l _ => (1, link_each l);
     unit_file_link := fun _ _ l _ => (0, link_each l);
     unit_file_preset := fun _ _ l _ => (1, link_each l);
     unit_file_mask := fun _ _ l _ => (0, link_each l);
     unit_file_disable := fun _ _ l => (0, link_each l);
     unit_file_unmask := fun _ _ l => (0, link_each l);
     unit_file_set_default := fun _ n _ => (0, link_each [n]) |}.

(** Everything is allowed and nothing fails. *)
Definition obliging : Collaborators := collaborators_of 0 (fun _ => 0).

(** Every access check is denied with -EACCES. *)
Definition refusing : Collaborators := collaborators_of (-13) (fun _ => 0).

(** Sends on connection 1 fail with -ENOTCONN, all others go through. *)
Definition broken_pipe_1 : Collaborators :=
  collaborators_of 0 (fun b => if Nat.eqb b 1 then -107 else 0).

Definition idle_manager (mode : SystemdRunningAs)
    (subs : list BusTrackedClient) (privates : list sd_bus)
    (api : option sd_bus) : Manager :=
  mk_manager mode MANAGER_RUNNING [] [] subs privates api None None None None.

Definition fresh_world (m : Manager) : World := mk_world m None [].

Definition unit_files_changed_signal : out_message :=
  mk_out (Signal "/org/freedesktop/systemd1"
            "org.freedesktop.systemd1.Manager" "UnitFilesChanged") [] None.

(** The connections a fan-out to everybody addresses, in order. *)
Definition open_connections (m : Manager) : list sd_bus :=
  private_buses m ++ match api_bus m with Some b => [b] | None => [] end.

(** The events [c] adds when run on manager [m]. *)
Definition events_of {A} (c : M A) (m : Manager) : list event :=
  trace (snd (c (fresh_world m))).


Definition is_signal (member : string) (e : event) : bool :=
  match e with
  | EvSend _ _ {| kind := Signal _ _ mb |} => String.eqb mb member
  | _ => false
  end.

(** One message without destination to each connection of [l]. *)
Definition to_everybody (sig : out_message) (l : list sd_bus) : list event :=
  map (fun b => EvSend b None sig) l.

(** Every open connection is addressed at least once by [c]. *)
Definition reaches_every_connection (c : M Z) (m : Manager) : Prop :=
  forall b, In b (open_connections m) ->
            exists d msg, In (EvSend b d msg) (events_of c m).

(** The request was turned down with a bus error. *)
Definition failed_with_fault (res : outcome Z * World) : Prop :=
  exists r e, fst res = Normal r /\ r < 0 /\ error (snd res) = Some e.

Definition add_events (w : World) (es : list event) : World :=
  mk_world (manager w) (error w) (trace w ++ es).

Definition fault (w : World) (e : sd_bus_error) (es : list event) : World :=
  mk_world (manager w) (Some e) (trace w ++ es).

Definition two_subscribers : list BusTrackedClient :=
  [mk_client 1%nat ":1.10"; mk_client 2%nat ":1.20"].

Definition held_reply : out_message :=
  mk_out (MethodReturn (mk_message ":1.5" [])) [] None.

(** A manager in the middle of a reload asked for over connection 3. *)
Definition reloading_manager : Manager :=
  mk_manager SYSTEMD_SYSTEM MANAGER_RELOAD [] [] [] [] None
    (Some held_reply) (Some 3%nat) None None.

Definition foo_service : Unit :=
  mk_unit "foo.service" UNIT_SERVICE "Foo" "loaded" "active" "running"
    None (Some (mk_job 7 JOB_RESTART "foo.service")).

Definition bar_target : Unit :=
  mk_unit "bar.target" UNIT_TARGET "Bar" "loaded" "inactive" "dead"
    None None.

(** Two units; [foo.service] is also known as [foo-alias.service]. *)
Definition small_registry : Manager :=
  mk_manager SYSTEMD_SYSTEM MANAGER_RUNNING
    [ ("foo-alias.service", foo_service);
      ("foo.service", foo_service);
      ("bar.target", bar_target) ]
    [ (7, mk_job 7 JOB_RESTART "foo.service") ]
    [] [] None None None None None.

(** The handlers that only a system manager serves by setting an exit
    code, with the verb they are checked under, the exit code and the text
    of their refusal. *)
Definition system_only (C : Collaborators)
    : list (handler * string * ManagerExitCode * string) :=
  [ (method_reboot C, "reboot", MANAGER_REBOOT,
     "Reboot is only supported for system managers.");
    (method_poweroff C, "halt", MANAGER_POWEROFF,
     "Powering off is only supported for system managers.");
    (method_halt C, "halt", MANAGER_HALT,
     "Halt is only supported for system managers.");
    (method_kexec C, "reboot", MANAGER_KEXEC,
     "KExec is only supported for system managers.") ].

Definition empty_return (call : sd_bus_message) : out_message :=
  mk_out (MethodReturn call) [] None.

(** The call of a peer with no argument, and the world in which that
    peer, on connection 1, is the one subscriber. *)
Definition plain_call : sd_bus_message := mk_message ":1.10" [].

Definition subscribed_world : World :=
  fresh_world
    (idle_manager SYSTEMD_USER [mk_client 1%nat ":1.10"] [] None).

Definition switch_root_call : sd_bus_message :=
  mk_message ":1.9" [VString "/sysroot"; VString ""].

(** No allocation fails while a message is put together. *)
Definition builds_messages (C : Collaborators) : Prop :=
  (forall call, 0 <= sd_bus_message_new_method_return_r C call)
  /\ (forall b member, 0 <= sd_bus_message_new_signal_r C b member)
  /\ (forall msg vs, 0 <= sd_bus_message_append_r C msg vs)
  /\ (forall msg contents, 0 <= sd_bus_message_open_container_r C msg contents)
  /\ (forall msg, 0 <= sd_bus_message_close_container_r C msg).



(** The units ListUnits reports, in order: those of the entries whose
    key is the unit's id. *)
Definition listed (entries : list (string * Unit)) : list Unit :=
  map snd (filter (fun e => String.eqb (fst e) (id (snd e))) entries).

(** The tuple ListUnits reports for [u]. *)
Definition unit_row (C : Collaborators) (u : Unit) : bus_value :=
  unit_tuple C u
    (match unit_dbus_path C u with Some p => p | None => "" end)
    (match job u with Some j => job_dbus_path C j | None => None end).

(** The eight unit-file methods answered with a list of changes. *)
Inductive unit_file_method :=
| EnableUnitFiles
| DisableUnitFiles
| ReenableUnitFiles
| LinkUnitFiles
| PresetUnitFiles
| MaskUnitFiles
| UnmaskUnitFiles
| SetDefaultTarget.

Definition handler_of (C : Collaborators) (k : unit_file_method) : handler :=
  match k with
  | EnableUnitFiles => method_enable_unit_files C
  | DisableUnitFiles => method_disable_unit_files C
  | ReenableUnitFiles => method_reenable_unit_files C
  | LinkUnitFiles => method_link_unit_files C
  | PresetUnitFiles => method_preset_unit_files C
  | MaskUnitFiles => method_mask_unit_files C
  | UnmaskUnitFiles => method_unmask_unit_files C
  | SetDefaultTarget => method_set_default_target C
  end.

(** The verb each of them is checked under. *)
Definition verb_of (k : unit_file_method) : string :=
  match k with
  | DisableUnitFiles | MaskUnitFiles => "disable"
  | _ => "enable"
  end.

(** What install.c answers to the arguments of a request: its result
    and the changes it made; [None] if the arguments do not decode. *)
Definition operation_force (call : unit_file_call_force) (m : Manager)
    (message : sd_bus_message) : option (Z * list UnitFileChange) :=
  let '(r, l, message) := sd_bus_message_read_strv message in
  if r <? 0 then None else
  let '(r, runtime, force, message) := sd_bus_message_read_bb message in
  if r <? 0 then None else
  Some (call (scope_of m) runtime l force).

Definition operation_plain (call : unit_file_call) (m : Manager)
    (message : sd_bus_message) : option (Z * list UnitFileChange) :=
  let '(r, l, message) := sd_bus_message_read_strv message in
  if r <? 0 then None else
  let '(r, runtime, message) := sd_bus_message_read_b message in
  if r <? 0 then None else
  Some (call (scope_of m) runtime l).

Definition operation_set_default (C : Collaborators) (m : Manager)
    (message : sd_bus_message) : option (Z * list UnitFileChange) :=
  let '(r, name, force, message) := sd_bus_message_read_sb message in
  if r <? 0 then None else
  Some (unit_file_set_default C (scope_of m) name force).

Definition unit_file_operation (C : Collaborators) (k : unit_file_method)
    : Manager -> sd_bus_message -> option (Z * list UnitFileChange) :=
  match k with
  | EnableUnitFiles => operation_force (unit_file_enable C)
  | DisableUnitFiles => operation_plain (unit_file_disable C)
  | ReenableUnitFiles => operation_force (unit_file_reenable C)
  | LinkUnitFiles => operation_force (unit_file_link C)
  | PresetUnitFiles => operation_force (unit_file_preset C)
  | MaskUnitFiles => operation_force (unit_file_mask C)
  | UnmaskUnitFiles => operation_plain (unit_file_unmask C)
  | SetDefaultTarget => operation_set_default C
  end.

(** The UnitFilesChanged signals among the events [es]. *)
Definition unit_files_changed_in (es : list event) : list event :=
  filter (is_signal "UnitFilesChanged") es.

(** The events of one fan-out of UnitFilesChanged from manager [m]. *)
Definition one_broadcast (C : Collaborators) (m : Manager) : list event :=
  events_of (bus_manager_foreach_client (send_unit_files_changed C)) m.

(** What [send_unit_files_changed] returns and sends on connection [b]. *)
Definition changed_result (C : Collaborators) (b : sd_bus)
    (d : option string) : Z :=
  if sd_bus_message_new_signal_r C b "UnitFilesChanged" <? 0
  then sd_bus_message_new_signal_r C b "UnitFilesChanged"
  else sd_bus_send_r C b d unit_files_changed_signal.

Definition changed_events (C : Collaborators) (b : sd_bus)
    (d : option string) : list event :=
  if sd_bus_message_new_signal_r C b "UnitFilesChanged" <? 0
  then []
  else [EvSend b d unit_files_changed_signal].

Definition enable_call : sd_bus_message :=
  mk_message ":1.9" [VStrv ["foo.service"]; VBool false; VBool false].






Definition job_call : sd_bus_message := mk_message ":1.9" [VUint32 7].

(** ** Further handlers of the table

    The handlers below hand the request over to other parts of the tree
    (dbus-unit.c, manager.c, job.c).  What those do to the world is not
    known here, so each is taken as a computation of its own: a handler
    that returns without running one has left the world as the equations
    show it. *)

Record Delegates := mk_delegates {
  (* dbus-unit *)
  bus_unit_method_start_generic :
    sd_bus -> sd_bus_message -> Unit -> JobType -> bool -> M Z;
  bus_unit_method_kill : sd_bus -> sd_bus_message -> Unit -> M Z;
  bus_unit_method_reset_failed : sd_bus -> sd_bus_message -> Unit -> M Z;
  bus_unit_method_set_properties : sd_bus -> sd_bus_message -> Unit -> M Z;
  (* manager *)
  manager_load_unit : string -> M (Z * Unit);
  manager_clear_jobs : M unit;
  manager_reset_failed : M unit;
  manager_environment_add :
    option (list string) -> option (list string) -> M Z;
  (* job *)
  job_finish_and_invalidate : Job -> M unit;
  job_state_to_string : Job -> string;
  job_unit_path : Job -> option string;
  (* env-util *)
  strv_env_is_valid : list string -> bool;
  strv_env_name_or_assignment_is_valid : list string -> bool
}.

(** What [property_get_tainted] finds outside the manager: the results
    of [readlink_malloc ("/etc/mtab")], [access ("/proc/cgroups")] and
    [hwclock_is_localtime ()]. *)
Record TaintProbes := mk_probes {
  readlink_etc_mtab_r : Z;
  access_proc_cgroups_r : Z;
  hwclock_is_localtime_r : Z
}.

Definition stpcpy (e s : string) : string := String.append e s.

(** [e[-1] = 0]: the string without its last character. *)
Fixpoint drop_last (s : string) : string :=
  match s with
  | EmptyString => EmptyString
  | String _ EmptyString => EmptyString
  | String c s' => String c (drop_last s')
  end.

(** [sizeof] of the literal that dimensions [buf] in
    [property_get_tainted]: its characters and the final NUL. *)
Definition sizeof_tainted_buf : nat :=
  S (String.length
       "split-usr:mtab-not-symlink:cgroups-missing:local-hwclock:").

(** What [property_get_tainted] has written to [buf] before it removes
    the last colon; [taint_usr] is [m->taint_usr]. *)
Definition tainted_written (taint_usr : bool) (p : TaintProbes) : string :=
  let e := "" in
  let e := if taint_usr then stpcpy e "split-usr:" else e in
  let e := if readlink_etc_mtab_r p <? 0
           then stpcpy e "mtab-not-symlink:" else e in
  let e := if access_proc_cgroups_r p <? 0
           then stpcpy e "cgroups-missing:" else e in
  let e := if 0 <? hwclock_is_localtime_r p
           then stpcpy e "local-hwclock:" else e in
  e.

(** The content of [buf] when it is appended to the reply. *)
Definition tainted_buf (taint_usr : bool) (p : TaintProbes) : string :=
  let e := tainted_written taint_usr p in
  (* remove the last ':' *)
  if isempty e then e else drop_last e.

(** The taints that are set, in the order the function tests them. *)
Definition taints (taint_usr : bool) (p : TaintProbes) : list string :=
  (if taint_usr then ["split-usr"] else [])
  ++ (if readlink_etc_mtab_r p <? 0 then ["mtab-not-symlink"] else [])
  ++ (if access_proc_cgroups_r p <? 0 then ["cgroups-missing"] else [])
  ++ (if 0 <? hwclock_is_localtime_r p then ["local-hwclock"] else []).

Definition UINT32_MAX_plus_1 : Z := 2 ^ 32.

Section MoreHandlers.

Context (C : Collaborators) (D : Delegates).

Definition property_get_tainted (taint_usr : bool) (p : TaintProbes)
    (reply : out_message) : Z * out_message :=
  sd_bus_message_append C reply [VString (tainted_buf taint_usr p)].

(** [(uint32_t) hashmap_size (m->units)] *)
Definition property_get_n_names (reply : out_message) : M (Z * out_message) :=
  m <- get_manager ;;
  ret (sd_bus_message_append C reply
         [VUint32 (set_size (units m) mod UINT32_MAX_plus_1)]).

Definition property_get_n_jobs (reply : out_message) : M (Z * out_message) :=
  m <- get_manager ;;
  ret (sd_bus_message_append C reply
         [VUint32 (set_size (jobs m) mod UINT32_MAX_plus_1)]).

Definition method_start_unit_generic (bus : sd_bus) (message : sd_bus_message)
    (job_type : JobType) (reload_if_possible : bool) : M Z :=
  let '(r, name, message) := sd_bus_message_read_s message in
  if r <? 0 then ret r else
  ru <- manager_load_unit D name ;;
  let '(r, u) := ru in
  if r <? 0 then ret r else
  bus_unit_method_start_generic D bus message u job_type reload_if_possible.

Definition method_start_unit : handler := fun bus message =>
  method_start_unit_generic bus message JOB_START false.

Definition method_stop_unit : handler := fun bus message =>
  method_start_unit_generic bus message JOB_STOP false.

Definition method_reload_unit : handler := fun bus message =>
  method_start_unit_generic bus message JOB_RELOAD false.

Definition method_restart_unit : handler := fun bus message =>
  method_start_unit_generic bus message JOB_RESTART false.

Definition method_try_restart_unit : handler := fun bus message =>
  method_start_unit_generic bus message JOB_TRY_RESTART false.

Definition method_reload_or_restart_unit : handler := fun bus message =>
  method_start_unit_generic bus message JOB_RESTART true.

Definition method_reload_or_try_restart_unit : handler := fun bus message =>
  method_start_unit_generic bus message JOB_TRY_RESTART true.

(** [u && u->job && u->job->type == JOB_START] *)
Definition has_start_job (u : option Unit) : bool :=
  match u with
  | Some u =>
      match job u with
      | Some j =>
          match job_type j with
          | JOB_START => true
          | _ => false
          end
      | None => false
      end
  | None => false
  end.

Definition method_start_unit_replace : handler := fun bus message =>
  let '(r, old_name, message) := sd_bus_message_read_s message in
  if r <? 0 then ret r else
  u <- manager_get_unit old_name ;;
  if negb (has_start_job u) then
    sd_bus_error_setf C BUS_ERROR_NO_SUCH_JOB "No job queued for unit %s"
      [ArgS old_name]
  else method_start_unit_generic bus message JOB_START false.

Definition method_kill_unit : handler := fun bus message =>
  let '(r, name, message) := sd_bus_message_read_s message in
  if r <? 0 then ret r else
  u <- manager_get_unit name ;;
  match u with
  | None =>
      sd_bus_error_setf C BUS_ERROR_NO_SUCH_UNIT "Unit %s is not loaded."
        [ArgS name]
  | Some u => bus_unit_method_kill D bus message u
  end.

Definition method_reset_failed_unit : handler := fun bus message =>
  let '(r, name, message) := sd_bus_message_read_s message in
  if r <? 0 then ret r else
  u <- manager_get_unit name ;;
  match u with
  | None =>
      sd_bus_error_setf C BUS_ERROR_NO_SUCH_UNIT "Unit %s is not loaded."
        [ArgS name]
  | Some u => bus_unit_method_reset_failed D bus message u
  end.

Definition method_set_unit_properties : handler := fun bus message =>
  let '(r, name, message) := sd_bus_message_read_s message in
  if r <? 0 then ret r else
  u <- manager_get_unit name ;;
  match u with
  | None =>
      sd_bus_error_setf C BUS_ERROR_NO_SUCH_UNIT "Unit %s is not loaded."
        [ArgS name]
  | Some u => bus_unit_method_set_properties D bus message u
  end.

Definition method_cancel_job : handler := fun bus message =>
  let '(r, id, message) := sd_bus_message_read_u message in
  if r <? 0 then ret r else
  j <- manager_get_job id ;;
  match j with
  | None =>
      sd_bus_error_setf C BUS_ERROR_NO_SUCH_JOB "Job %u does not exist."
        [ArgU id]
  | Some j =>
      TRY r <- selinux_unit_access_check C (job_unit j) bus message "stop" ;;
      job_finish_and_invalidate D j ;;;
      sd_bus_reply_method_return C bus message []
  end.

Definition method_clear_jobs : handler := fun bus message =>
  TRY r <- selinux_access_check C bus message "reboot" ;;
  manager_clear_jobs D ;;;
  sd_bus_reply_method_return C bus message [].

Definition method_reset_failed : handler := fun bus message =>
  TRY r <- selinux_access_check C bus message "reload" ;;
  manager_reset_failed D ;;;
  sd_bus_reply_method_return C bus message [].

(** The tuple "(usssoo)" appended for one job. *)
Definition job_tuple (j : Job) (job_path unit_path : string) : bus_value :=
  VStruct
    [ VUint32 (job_id j);
      VString (job_unit j);
      VString (job_type_to_string C (job_type j));
      VString (job_state_to_string D j);
      VObjectPath job_path;
      VObjectPath unit_path ].

(** [HASHMAP_FOREACH (j, m->jobs, i)] with its body. *)
Fixpoint list_jobs_foreach (entries : list (Z * Job)) (reply : out_message)
    : Z * out_message :=
  match entries with
  | [] => (0, reply)
  | (_, j) :: entries' =>
      match job_dbus_path C j with
      | None => (- ENOMEM, reply)
      | Some job_path =>
          match job_unit_path D j with
          | None => (- ENOMEM, reply)
          | Some unit_path =>
              let '(r, reply) :=
                sd_bus_message_append C reply
                  [job_tuple j job_path unit_path] in
              if r <? 0 then (r, reply)
              else list_jobs_foreach entries' reply
          end
      end
  end.

Definition method_list_jobs : handler := fun bus message =>
  TRY r <- selinux_access_check C bus message "status" ;;
  let '(r, reply) := sd_bus_message_new_method_return C message in
  if r <? 0 then ret r else
  let '(r, reply) := sd_bus_message_open_container C reply "(usssoo)" in
  if r <? 0 then ret r else
  m <- get_manager ;;
  let '(r, reply) := list_jobs_foreach (jobs m) reply in
  if r <? 0 then ret r else
  let '(r, reply) := sd_bus_message_close_container C reply in
  if r <? 0 then ret r else
  sd_bus_send C bus reply.

Definition method_set_environment : handler := fun bus message =>
  TRY r <- selinux_access_check C bus message "reload" ;;
  let '(r, plus, message) := sd_bus_message_read_strv message in
  if r <? 0 then ret r else
  if negb (strv_env_is_valid D plus) then
    sd_bus_error_setf C SD_BUS_ERROR_INVALID_ARGS
      "Invalid environment assignments" []
  else
    TRY r <- manager_environment_add D None (Some plus) ;;
    sd_bus_reply_method_return C bus message [].

Definition method_unset_environment : handler := fun bus message =>
  TRY r <- selinux_access_check C bus message "reload" ;;
  let '(r, minus, message) := sd_bus_message_read_strv message in
  if r <? 0 then ret r else
  if negb (strv_env_name_or_assignment_is_valid D minus) then
    sd_bus_error_setf C SD_BUS_ERROR_INVALID_ARGS
      "Invalid environment variable names or assignments" []
  else
    TRY r <- manager_environment_add D (Some minus) None ;;
    sd_bus_reply_method_return C bus message [].

Definition method_unset_and_set_environment : handler := fun bus message =>
  TRY r <- selinux_access_check C bus message "reload" ;;
  let '(r, plus, message) := sd_bus_message_read_strv message in
  if r <? 0 then ret r else
  let '(r, minus, message) := sd_bus_message_read_strv message in
  if r <? 0 then ret r else
  if negb (strv_env_is_valid D plus) then
    sd_bus_error_setf C SD_BUS_ERROR_INVALID_ARGS
      "Invalid environment assignments" []
  else
  if negb (strv_env_name_or_assignment_is_valid D minus) then
    sd_bus_error_setf C SD_BUS_ERROR_INVALID_ARGS
      "Invalid environment variable names or assignments" []
  else
    TRY r <- manager_environment_add D (Some minus) (Some plus) ;;
    sd_bus_reply_method_return C bus message [].

(** [times] is the array of six [usec_t] handed over as [userdata]. *)
Definition send_finished (times : list Z) : send_message_t :=
  fun bus destination =>
  let '(r, message) :=
    sd_bus_message_new_signal C bus "/org/freedesktop/systemd1"
      "org.freedesktop.systemd1.Manager" "StartupFinished" in
  if r <? 0 then ret r else
  let '(r, message) := sd_bus_message_append C message (map VUint64 times) in
  if r <? 0 then ret r else
  sd_bus_send_to C bus message destination.

Definition bus_manager_send_finished
    (firmware_usec loader_usec kernel_usec initrd_usec userspace_usec
     total_usec : Z) : M Z :=
  bus_manager_foreach_client
    (send_finished [firmware_usec; loader_usec; kernel_usec; initrd_usec;
                    userspace_usec; total_usec]).

(** The handlers above that start with the coarse access check, with
    the verb they are checked under. *)
Definition more_checked_handlers : list (handler * string) :=
  [ (method_clear_jobs, "reboot");
    (method_reset_failed, "reload");
    (method_list_jobs, "status");
    (method_set_environment, "reload");
    (method_unset_environment, "reload");
    (method_unset_and_set_environment, "reload") ].

(** The handlers that need their unit loaded and hand it on. *)
Definition unit_handlers : list handler :=
  [ method_kill_unit; method_reset_failed_unit; method_set_unit_properties ].

End MoreHandlers.

(** Delegates for concrete runs: each answers with the empty method
    return on the connection the call came in on, or does nothing. *)
Definition stub_delegates : Delegates :=
  {| bus_unit_method_start_generic :=
       fun b msg _ _ _ => sd_bus_reply_method_return obliging b msg [];
     bus_unit_method_kill :=
       fun b msg _ => sd_bus_reply_method_return obliging b msg [];
     bus_unit_method_reset_failed :=
       fun b msg _ => sd_bus_reply_method_return obliging b msg [];
     bus_unit_method_set_properties :=
       fun b msg _ => sd_bus_reply_method_return obliging b msg [];
     manager_load_unit := fun n => ret (0, foo_service);
     manager_clear_jobs := ret tt;
     manager_reset_failed := ret tt;
     manager_environment_add := fun _ _ => ret 0;
     job_finish_and_invalidate := fun _ => ret tt;
     job_state_to_string := fun _ => "waiting";
     job_unit_path :=
       fun j => Some (String.append "/org/freedesktop/systemd1/unit/"
                        (job_unit j));
     strv_env_is_valid :=
       forallb (fun s => negb (isempty s));
     strv_env_name_or_assignment_is_valid :=
       forallb (fun s => negb (isempty s)) |}.


(** The triple a unit-file reply carries for one change. *)
Definition change_row (C : Collaborators) (c : UnitFileChange) : bus_value :=
  VStruct [ VString (unit_file_change_type_to_string C (change_type c));
            VString (change_path c);
            VString (change_source c) ].

Definition reloading_signal (active : bool) : out_message :=
  mk_out (Signal "/org/freedesktop/systemd1"
            "org.freedesktop.systemd1.Manager" "Reloading")
    [VBool active] None.

Definition finished_signal (times : list Z) : out_message :=
  mk_out (Signal "/org/freedesktop/systemd1"
            "org.freedesktop.systemd1.Manager" "StartupFinished")
    (map VUint64 times) None.

(** [c] leaves the manager as it found it. *)
Definition keeps_manager {A} (c : M A) : Prop :=
  forall w, manager (snd (c w)) = manager w.

Definition is_send (e : event) : bool :=
  match e with
  | EvSend _ _ _ => true
  | _ => false
  end.

Definition all_taints : TaintProbes := mk_probes (-2) (-2) 1.

Definition start_job_registry : Manager :=
  mk_manager SYSTEMD_SYSTEM MANAGER_RUNNING
    [ ("old.service",
       mk_unit "old.service" UNIT_SERVICE "Old" "loaded" "activating" "start"
         None (Some (mk_job 3 JOB_START "old.service")));
      ("foo.service", foo_service) ]
    [ (3, mk_job 3 JOB_START "old.service");
      (7, mk_job 7 JOB_RESTART "foo.service") ]
    [] [] None None None None None.

(** As [obliging], but enabling unit files fails with -ENOENT. *)
Definition install_fails : Collaborators :=
  {| selinux_access_check_r := selinux_access_check_r obliging;
     selinux_unit_access_check_r := selinux_unit_access_check_r obliging;
     bus_error_name_to_errno := bus_error_name_to_errno obliging;
     sd_bus_message_new_method_return_r :=
       sd_bus_message_new_method_return_r obliging;
     sd_bus_message_new_signal_r := sd_bus_message_new_signal_r obliging;
     sd_bus_message_append_r := sd_bus_message_append_r obliging;
     sd_bus_message_open_container_r :=
       sd_bus_message_open_container_r obliging;
     sd_bus_message_close_container_r :=
       sd_bus_message_close_container_r obliging;
     sd_bus_send_r := sd_bus_send_r obliging;
     unit_dbus_path := unit_dbus_path obliging;
     job_dbus_path := job_dbus_path obliging;
     job_type_to_string := job_type_to_string obliging;
     path_equal := path_equal obliging;
     path_is_absolute := path_is_absolute obliging;
     path_is_os_tree_r := path_is_os_tree_r obliging;
     access_X_OK_r := access_X_OK_r obliging;
     strdup := strdup obliging;
     strappend := strappend obliging;
     bus_snapshot_method_remove_r := bus_snapshot_method_remove_r obliging;
     unit_file_change_type_to_string :=
       unit_file_change_type_to_string obliging;
     unit_file_enable := fun _ _ _ _ => (-2, []);
     unit_file_reenable := unit_file_reenable obliging;
     unit_file_link := unit_file_link obliging;
     unit_file_preset := unit_file_preset obliging;
     unit_file_mask := unit_file_mask obliging;
     unit_file_disable := unit_file_disable obliging;
     unit_file_unmask := unit_file_unmask obliging;
     unit_file_set_default := unit_file_set_default obliging |}.

(** The entries of the unit hashmap that stand for an alias. *)
Definition alias_entries (entries : list (string * Unit))
    : list (string * Unit) :=
  filter (fun e => negb (String.eqb (fst e) (id (snd e)))) entries.

Definition kill_call : sd_bus_message :=
  mk_message ":1.9" [VString "ghost.service"; VString "all"].

Definition replace_call : sd_bus_message :=
  mk_message ":1.9"
    [VString "foo.service"; VString "new.service"; VString "replace"].

Definition environment_call : sd_bus_message :=
  mk_message ":1.9" [VStrv ["A=1"; ""]; VStrv ["B"]].

(** What a callback that builds the signal [member] with arguments
    [args] and sends it returns, and what it sends, on connection [b]. *)
Definition signal_result (C : Collaborators) (member : string)
    (args : list bus_value) (b : sd_bus) (d : option string) : Z :=
  let empty := mk_out (Signal "/org/freedesktop/systemd1"
                         "org.freedesktop.systemd1.Manager" member) [] None in
  if sd_bus_message_new_signal_r C b member <? 0
  then sd_bus_message_new_signal_r C b member
  else if sd_bus_message_append_r C empty args <? 0
       then sd_bus_message_append_r C empty args
       else sd_bus_send_r C b d
              (mk_out (Signal "/org/freedesktop/systemd1"
                         "org.freedesktop.systemd1.Manager" member)
                 args None).

Definition signal_events (C : Collaborators) (member : string)
    (args : list bus_value) (b : sd_bus) (d : option string) : list event :=
  let empty := mk_out (Signal "/org/freedesktop/systemd1"
                         "org.freedesktop.systemd1.Manager" member) [] None in
  if sd_bus_message_new_signal_r C b member <? 0 then []
  else if sd_bus_message_append_r C empty args <? 0 then []
       else [EvSend b d
               (mk_out (Signal "/org/freedesktop/systemd1"
                          "org.freedesktop.systemd1.Manager" member)
                  args None)].

(** The signal [member] with arguments [args] can be created and filled
    for connection [b]: neither [sd_bus_message_new_signal] nor
    [sd_bus_message_append] fails. *)
Definition signal_is_built (C : Collaborators) (member : string)
    (args : list bus_value) (b : sd_bus) : bool :=
  negb (sd_bus_message_new_signal_r C b member <? 0)
  && negb (sd_bus_message_append_r C
             (mk_out (Signal "/org/freedesktop/systemd1"
                        "org.freedesktop.systemd1.Manager" member) [] None)
             args <? 0).

(** As [obliging], but no signal can be created for connection 2
    (-ENOMEM). *)
Definition no_signal_for_2 : Collaborators :=
  {| selinux_access_check_r := selinux_access_check_r obliging;
     selinux_unit_access_check_r := selinux_unit_access_check_r obliging;
     bus_error_name_to_errno := bus_error_name_to_errno obliging;
     sd_bus_message_new_method_return_r :=
       sd_bus_message_new_method_return_r obliging;
     sd_bus_message_new_signal_r :=
       fun b _ => if Nat.eqb b 2 then - ENOMEM else 0;
     sd_bus_message_append_r := sd_bus_message_append_r obliging;
     sd_bus_message_open_container_r :=
       sd_bus_message_open_container_r obliging;
     sd_bus_message_close_container_r :=
       sd_bus_message_close_container_r obliging;
     sd_bus_send_r := sd_bus_send_r obliging;
     unit_dbus_path := unit_dbus_path obliging;
     job_dbus_path := job_dbus_path obliging;
     job_type_to_string := job_type_to_string obliging;
     path_equal := path_equal obliging;
     path_is_absolute := path_is_absolute obliging;
     path_is_os_tree_r := path_is_os_tree_r obliging;
     access_X_OK_r := access_X_OK_r obliging;
     strdup := strdup obliging;
     strappend := strappend obliging;
     bus_snapshot_method_remove_r := bus_snapshot_method_remove_r obliging;
     unit_file_change_type_to_string :=
       unit_file_change_type_to_string obliging;
     unit_file_enable := unit_file_enable obliging;
     unit_file_reenable := unit_file_reenable obliging;
     unit_file_link := unit_file_link obliging;
     unit_file_preset := unit_file_preset obliging;
     unit_file_mask := unit_file_mask obliging;
     unit_file_disable := unit_file_disable obliging;
     unit_file_unmask := unit_file_unmask obliging;
     unit_file_set_default := unit_file_set_default obliging |}.

(** ** The fan-out: [bus_manager_foreach_client] *)

Section FanOut.

(** A callback that hands one message [sig] to the transport and reports
    the transport's answer [res], as [send_unit_files_changed],
    [send_reloading] and [send_finished] do once their message is built. *)
Variable send_message : send_message_t.
Variable res : sd_bus -> option string -> Z.
Variable sig : out_message.
Hypothesis send_once :
  forall b d w,
    send_message b d w = (Normal (res b d), add_events w [EvSend b d sig]).

Let to_all := to_everybody sig.

Lemma add_events_twice w es es' :
  add_events (add_events w es) es' = add_events w (es ++ es').
Proof. unfold add_events; simpl; now rewrite app_assoc. Qed.

Lemma add_events_nil w : add_events w [] = w.
Proof. destruct w; unfold add_events; simpl; now rewrite app_nil_r. Qed.

(** The loop runs through connections that accept the message. *)
Lemma foreach_private_bus_through l :
  forall rest w,
    (forall b, In b l -> 0 <= res b None) ->
    foreach_private_bus send_message l rest w = rest (add_events w (to_all l)).
Proof.
  induction l as [|b l IH]; intros rest w Hok; simpl.
  - now rewrite add_events_nil.
  - unfold bind. rewrite send_once.
    assert (Hb : 0 <= res b None) by (apply Hok; now left).
    apply Z.ltb_ge in Hb. rewrite Hb.
    rewrite IH by (intros; apply Hok; now right).
    now rewrite add_events_twice.
Qed.

(** The loop ends at the first connection that refuses it. *)
Lemma foreach_private_bus_stops l1 b l2 :
  forall rest w,
    (forall x, In x l1 -> 0 <= res x None) ->
    res b None < 0 ->
    foreach_private_bus send_message (l1 ++ b :: l2) rest w
    = (Normal (res b None), add_events w (to_all (l1 ++ [b]))).
Proof.
  induction l1 as [|a l1 IH]; intros rest w Hok Hb; simpl.
  - unfold bind. rewrite send_once.
    apply Z.ltb_lt in Hb. now rewrite Hb.
  - unfold bind. rewrite send_once.
    assert (Ha : 0 <= res a None) by (apply Hok; now left).
    apply Z.ltb_ge in Ha. rewrite Ha.
    rewrite IH by (auto; intros; apply Hok; now right).
    now rewrite add_events_twice.
Qed.

Lemma set_size_ge_2 {A} (s : list A) :
  (2 <= List.length s)%nat ->
  (set_size s <=? 0) = false /\ (set_size s =? 1) = false.
Proof.
  unfold set_size; intros H; split.
  - apply Z.leb_gt; lia.
  - apply Z.eqb_neq; lia.
Qed.

(** C1, as the code has it.  With two or more subscribers, a send that
    fails on a private connection ends the fan-out there: the private
    connections before it and the failing one are the only ones
    addressed, nothing goes to the private connections after it nor to
    the api bus, and the caller gets the error code of that send, the
    first and only one met. *)
Theorem foreach_client_stops_at_first_failure :
  forall (w : World) (l1 l2 : list sd_bus) (b : sd_bus),
    (2 <= List.length (subscribed (manager w)))%nat ->
    private_buses (manager w) = l1 ++ b :: l2 ->
    (forall x, In x l1 -> 0 <= res x None) ->
    res b None < 0 ->
    bus_manager_foreach_client send_message w
    = (Normal (res b None), add_events w (to_all (l1 ++ [b]))).
Proof.
  intros w l1 l2 b Hn Hp Hok Hb.
  unfold bus_manager_foreach_client, bind, get_manager.
  destruct (set_size_ge_2 _ Hn) as [H0 H1]. rewrite H0, H1, Hp.
  now apply foreach_private_bus_stops.
Qed.

(** C3, as the code has it.  With no subscriber nothing is sent; with
    exactly one the callback runs once, on that subscriber's connection
    and with its name as destination (none if the name is empty); with
    two or more, and as long as no send on a private connection fails,
    one message without destination goes to every private connection and
    then to the api bus if there is one, whatever the number of
    subscribers. *)
Theorem foreach_client_sends :
  forall w : World,
    (subscribed (manager w) = [] ->
     bus_manager_foreach_client send_message w = (Normal 0, w))
    /\ (forall d,
          subscribed (manager w) = [d] ->
          let dest := if isempty (name d) then None else Some (name d) in
          bus_manager_foreach_client send_message w
          = (Normal (res (bus d) dest),
             add_events w [EvSend (bus d) dest sig]))
    /\ ((2 <= List.length (subscribed (manager w)))%nat ->
        (forall b, In b (private_buses (manager w)) -> 0 <= res b None) ->
        snd (bus_manager_foreach_client send_message w)
        = add_events w (to_all (open_connections (manager w)))
        /\ fst (bus_manager_foreach_client send_message w)
           = Normal (match api_bus (manager w) with
                     | Some a => res a None
                     | None => 0
                     end)).
Proof.
  intros w. repeat split.
  - intros Hs. unfold bus_manager_foreach_client, bind, get_manager.
    now rewrite Hs.
  - intros d Hs dest. unfold bus_manager_foreach_client, bind, get_manager.
    rewrite Hs; simpl. now rewrite send_once.
  - unfold bus_manager_foreach_client, bind, get_manager.
    destruct (set_size_ge_2 _ H) as [E0 E1]. rewrite E0, E1.
    rewrite foreach_private_bus_through by assumption.
    unfold open_connections, to_all, to_everybody. rewrite map_app.
    destruct (api_bus (manager w)) as [a|]; simpl.
    + rewrite send_once; simpl. now rewrite add_events_twice.
    + unfold ret; simpl. now rewrite app_nil_r.
  - unfold bus_manager_foreach_client, bind, get_manager.
    destruct (set_size_ge_2 _ H) as [E0 E1]. rewrite E0, E1.
    rewrite foreach_private_bus_through by assumption.
    destruct (api_bus (manager w)) as [a|]; simpl.
    + now rewrite send_once.
    + reflexivity.
Qed.

End FanOut.

Lemma send_unit_files_changed_once access send :
  forall b d w,
    send_unit_files_changed (collaborators_of access send) b d w
    = (Normal (send b), add_events w [EvSend b d unit_files_changed_signal]).
Proof. reflexivity. Qed.

Lemma foreach_client_stops_at_first_failure_witness :
  bus_manager_foreach_client (send_unit_files_changed broken_pipe_1)
    (fresh_world
       (idle_manager SYSTEMD_SYSTEM two_subscribers [0; 1; 2]%nat (Some 9%nat)))
  = (Normal (-107),
     mk_world
       (idle_manager SYSTEMD_SYSTEM two_subscribers [0; 1; 2]%nat (Some 9%nat))
       None
       [EvSend 0%nat None unit_files_changed_signal;
        EvSend 1%nat None unit_files_changed_signal]).
Proof.
  apply (foreach_client_stops_at_first_failure
           (send_unit_files_changed broken_pipe_1)
           (fun b _ => if Nat.eqb b 1 then -107 else 0)
           unit_files_changed_signal
           (send_unit_files_changed_once 0 _)
           (fresh_world
              (idle_manager SYSTEMD_SYSTEM two_subscribers [0; 1; 2]%nat
                 (Some 9%nat)))
           [0%nat] [2%nat] 1%nat).
  - simpl; lia.
  - reflexivity.
  - intros x [<-|[]]; simpl; lia.
  - simpl; lia.
Defined.

(** C1 as stated fails: connection 1 refuses the message, and the
    connections after it, private connection 2 and the api bus 9, are
    never addressed. *)
Lemma failure_aborts_fan_out :
  ~ reaches_every_connection
      (bus_manager_foreach_client (send_unit_files_changed broken_pipe_1))
      (idle_manager SYSTEMD_SYSTEM two_subscribers [0; 1; 2]%nat (Some 9%nat)).
Proof.
  intros H. destruct (H 2%nat) as [d [msg Hin]].
  - simpl; auto.
  - simpl in Hin. destruct Hin as [E|[E|[]]]; discriminate E.
Qed.

Lemma foreach_client_sends_witness :
  (bus_manager_foreach_client (send_unit_files_changed obliging)
     (fresh_world (idle_manager SYSTEMD_SYSTEM [] [1; 2]%nat (Some 9%nat)))
   = (Normal 0,
      fresh_world (idle_manager SYSTEMD_SYSTEM [] [1; 2]%nat (Some 9%nat))))
  /\ (trace (snd (bus_manager_foreach_client (send_unit_files_changed obliging)
        (fresh_world
           (idle_manager SYSTEMD_SYSTEM [mk_client 2%nat ":1.20"] [1; 2]%nat
              (Some 9%nat)))))
      = [EvSend 2%nat (Some ":1.20") unit_files_changed_signal])
  /\ (trace (snd (bus_manager_foreach_client (send_unit_files_changed obliging)
        (fresh_world
           (idle_manager SYSTEMD_SYSTEM two_subscribers [1; 2]%nat
              (Some 9%nat)))))
      = [EvSend 1%nat None unit_files_changed_signal;
         EvSend 2%nat None unit_files_changed_signal;
         EvSend 9%nat None unit_files_changed_signal]).
Proof.
  pose (T := foreach_client_sends
               (send_unit_files_changed obliging) (fun _ _ => 0)
               unit_files_changed_signal
               (send_unit_files_changed_once 0 _)).
  split; [|split].
  - apply (proj1 (T (fresh_world _))). reflexivity.
  - destruct (T (fresh_world
               (idle_manager SYSTEMD_SYSTEM [mk_client 2%nat ":1.20"]
                  [1; 2]%nat (Some 9%nat)))) as [_ [T1 _]].
    rewrite (T1 (mk_client 2%nat ":1.20")); reflexivity.
  - destruct (T (fresh_world
               (idle_manager SYSTEMD_SYSTEM two_subscribers [1; 2]%nat
                  (Some 9%nat)))) as [_ [_ T2]].
    destruct T2 as [Hw _].
    + simpl; lia.
    + intros b _; lia.
    + rewrite Hw. reflexivity.
Defined.

(** C3 as stated fails: three connections are open, and one send is
    made, since the first private connection refuses the message. *)
Lemma fewer_sends_than_connections :
  List.length
    (events_of (bus_manager_foreach_client (send_reloading broken_pipe_1 true))
       (idle_manager SYSTEMD_USER two_subscribers [1; 2]%nat (Some 9%nat)))
  <> List.length
       (open_connections
          (idle_manager SYSTEMD_USER two_subscribers [1; 2]%nat (Some 9%nat))).
Proof. vm_compute. discriminate. Qed.

(** ** Handlers *)

Ltac run_monad :=
  unfold bind, ret, record, get_manager, set_manager, assert,
    sd_bus_error_setf, selinux_access_check, selinux_unit_access_check,
    manager_get_unit, manager_get_job, sd_bus_reply_method_return,
    sd_bus_send, sd_bus_send_to, path_is_os_tree, access_X_OK,
    bus_snapshot_method_remove, add_events, fault;
  simpl.

(** C2, as the code has it.  While a reload reply is held, a further
    Reload request is not answered with a bus error: once it has passed
    the access check it trips [assert(!m->queued_message)], which stops
    the manager; one the access check denies returns the check's code.
    Either way the manager is left as it was, so the reply that is held
    stays the only one. *)
Theorem reload_while_pending :
  forall (C : Collaborators) (bus : sd_bus) (message : sd_bus_message)
         (w : World) (q : out_message),
    queued_message (manager w) = Some q ->
    method_reload C bus message w
    = (if selinux_access_check_r C bus message "reload" <? 0
       then Normal (selinux_access_check_r C bus message "reload")
       else AssertionFailed "!m->queued_message",
       add_events w [EvAccessCheck bus "reload"]).
Proof.
  intros C bus message w q Hq. unfold method_reload. run_monad.
  destruct (selinux_access_check_r C bus message "reload" <? 0); simpl.
  - reflexivity.
  - now rewrite Hq.
Qed.

Lemma reload_while_pending_witness :
  method_reload obliging 4%nat (mk_message ":1.7" [])
    (fresh_world reloading_manager)
  = (AssertionFailed "!m->queued_message",
     mk_world reloading_manager None [EvAccessCheck 4%nat "reload"]).
Proof.
  exact (reload_while_pending obliging 4%nat (mk_message ":1.7" [])
           (fresh_world reloading_manager) held_reply eq_refl).
Defined.

(** C2 as stated fails: the second Reload of an allowed caller does not
    come back with a fault, it does not come back at all. *)
Lemma second_reload_is_not_a_fault :
  ~ failed_with_fault
      (method_reload obliging 4%nat (mk_message ":1.7" [])
         (fresh_world reloading_manager)).
Proof.
  intros [r [e [Hr _]]]. vm_compute in Hr. discriminate Hr.
Qed.

(** C10.  RemoveSnapshot answers a name that is not loaded and a name
    that is loaded as something else than a snapshot with the same bus
    error, NoSuchUnit, and the same return value; only the wording of the
    message differs. *)
Theorem remove_snapshot_no_such_unit :
  forall (C : Collaborators) (bus : sd_bus) (message : sd_bus_message)
         (w : World) (uname : string) (rest : list bus_value),
    0 <= selinux_access_check_r C bus message "stop" ->
    body message = VString uname :: rest ->
    (hashmap_get (units (manager w)) uname = None ->
     method_remove_snapshot C bus message w
     = (Normal (- bus_error_name_to_errno C BUS_ERROR_NO_SUCH_UNIT),
        fault w
          (mk_error BUS_ERROR_NO_SUCH_UNIT "Unit %s does not exist."
             [ArgS uname])
          [EvAccessCheck bus "stop"; EvGetUnit uname]))
    /\ (forall u,
          hashmap_get (units (manager w)) uname = Some u ->
          type u <> UNIT_SNAPSHOT ->
          method_remove_snapshot C bus message w
          = (Normal (- bus_error_name_to_errno C BUS_ERROR_NO_SUCH_UNIT),
             fault w
               (mk_error BUS_ERROR_NO_SUCH_UNIT "Unit %s is not a snapshot"
                  [ArgS uname])
               [EvAccessCheck bus "stop"; EvGetUnit uname])).
Proof.
  intros C bus message w uname rest Hacc Hbody.
  apply Z.ltb_ge in Hacc.
  split; [intros Hu | intros u Hu Ht];
    unfold method_remove_snapshot, sd_bus_message_read_s; run_monad;
    rewrite Hacc, Hbody; simpl; rewrite Hu, <- app_assoc; simpl.
  - reflexivity.
  - destruct (type u); try reflexivity. now elim Ht.
Qed.

Lemma remove_snapshot_no_such_unit_witness :
  error (snd (method_remove_snapshot obliging 1%nat
                (mk_message ":1.9" [VString "ghost.snapshot"])
                (fresh_world small_registry)))
  = Some (mk_error BUS_ERROR_NO_SUCH_UNIT "Unit %s does not exist."
            [ArgS "ghost.snapshot"])
  /\ error (snd (method_remove_snapshot obliging 1%nat
                   (mk_message ":1.9" [VString "foo.service"])
                   (fresh_world small_registry)))
     = Some (mk_error BUS_ERROR_NO_SUCH_UNIT "Unit %s is not a snapshot"
               [ArgS "foo.service"]).
Proof.
  split.
  - destruct (remove_snapshot_no_such_unit obliging 1%nat
                (mk_message ":1.9" [VString "ghost.snapshot"])
                (fresh_world small_registry) "ghost.snapshot" [])
      as [H _]; [simpl; lia | reflexivity |].
    rewrite H; reflexivity.
  - destruct (remove_snapshot_no_such_unit obliging 1%nat
                (mk_message ":1.9" [VString "foo.service"])
                (fresh_world small_registry) "foo.service" [])
      as [_ H]; [simpl; lia | reflexivity |].
    rewrite (H foo_service); [reflexivity | reflexivity | discriminate].
Defined.

(** C6, as the code has it.  A SwitchRoot request whose root is "/" (for
    [path_equal]) or is not absolute changes nothing in the manager and
    reaches neither the file system nor anything else outside: the
    access check is the one call made.  Asked of a system manager by a
    caller the access check lets through, it is answered with
    InvalidArguments. *)
Theorem switch_root_rejects_bad_root :
  forall (C : Collaborators) (bus : sd_bus) (message : sd_bus_message)
         (w : World) (root init : string) (rest : list bus_value),
    body message = VString root :: VString init :: rest ->
    path_equal C root "/" = true \/ path_is_absolute C root = false ->
    (0 <= selinux_access_check_r C bus message "reboot" ->
     running_as (manager w) = SYSTEMD_SYSTEM ->
     method_switch_root C bus message w
     = (Normal (- bus_error_name_to_errno C SD_BUS_ERROR_INVALID_ARGS),
        fault w
          (mk_error SD_BUS_ERROR_INVALID_ARGS "Invalid switch root path %s"
             [ArgS root])
          [EvAccessCheck bus "reboot"]))
    /\ manager (snd (method_switch_root C bus message w)) = manager w
    /\ trace (snd (method_switch_root C bus message w))
       = trace w ++ [EvAccessCheck bus "reboot"].
Proof.
  intros C bus message w root init rest Hbody Hbad.
  assert (Hor : path_equal C root "/" || negb (path_is_absolute C root) = true).
  { destruct Hbad as [-> | ->]; [reflexivity | apply orb_true_r]. }
  unfold method_switch_root, sd_bus_message_read_ss, is_system. run_monad.
  rewrite Hbody; simpl. rewrite Hor.
  split; [intros Hacc Hsys | ].
  - apply Z.ltb_ge in Hacc. rewrite Hacc; cbn. now rewrite Hsys.
  - destruct (selinux_access_check_r C bus message "reboot" <? 0); cbn;
      [now split |].
    destruct (running_as (manager w)); now split.
Qed.

Lemma switch_root_rejects_bad_root_witness :
  method_switch_root obliging 1%nat
    (mk_message ":1.9" [VString "/"; VString "/sbin/init"])
    (fresh_world small_registry)
  = (Normal (-22),
     mk_world small_registry
       (Some (mk_error SD_BUS_ERROR_INVALID_ARGS "Invalid switch root path %s"
                [ArgS "/"]))
       [EvAccessCheck 1%nat "reboot"])
  /\ method_switch_root obliging 1%nat
       (mk_message ":1.9" [VString "sysroot"; VString ""])
       (fresh_world small_registry)
     = (Normal (-22),
        mk_world small_registry
          (Some (mk_error SD_BUS_ERROR_INVALID_ARGS
                   "Invalid switch root path %s" [ArgS "sysroot"]))
          [EvAccessCheck 1%nat "reboot"]).
Proof.
  split.
  - apply (switch_root_rejects_bad_root obliging 1%nat
             (mk_message ":1.9" [VString "/"; VString "/sbin/init"])
             (fresh_world small_registry) "/" "/sbin/init" []).
    + reflexivity.
    + left; reflexivity.
    + simpl; lia.
    + reflexivity.
  - apply (switch_root_rejects_bad_root obliging 1%nat
             (mk_message ":1.9" [VString "sysroot"; VString ""])
             (fresh_world small_registry) "sysroot" "" []).
    + reflexivity.
    + right; reflexivity.
    + simpl; lia.
    + reflexivity.
Defined.

(** C6 as stated fails: a manager that is not the system manager
    answers a SwitchRoot request for the root "/" with NotSupported, not
    with InvalidArguments; the mode gate comes before the root is
    looked at. *)
Lemma bad_root_on_user_manager_is_not_supported :
  method_switch_root obliging 1%nat
    (mk_message ":1.10" [VString "/"; VString ""]) subscribed_world
  = (Normal (-95),
     fault subscribed_world
       (mk_error SD_BUS_ERROR_NOT_SUPPORTED
          "KExec is only supported for system managers." [])
       [EvAccessCheck 1%nat "reboot"])
  /\ ~ (exists e,
          error (snd (method_switch_root obliging 1%nat
                        (mk_message ":1.10" [VString "/"; VString ""])
                        subscribed_world))
          = Some e
          /\ error_name e = SD_BUS_ERROR_INVALID_ARGS).
Proof.
  split; [reflexivity|].
  intros [e [He Hn]]. vm_compute in He. injection He as <-.
  discriminate Hn.
Qed.

(** *** Subscribe and Unsubscribe *)

Lemma existsb_after_track b n (s : list BusTrackedClient) :
  existsb (same_client b n) (s ++ [mk_client b n]) = true.
Proof.
  rewrite existsb_app; simpl. unfold same_client; simpl.
  now rewrite Nat.eqb_refl, String.eqb_refl, orb_true_r.
Qed.

Lemma existsb_after_untrack b n (s : list BusTrackedClient) :
  existsb (same_client b n)
    (filter (fun d => negb (same_client b n d)) s) = false.
Proof.
  induction s as [|d s IH]; simpl; [reflexivity|].
  destruct (same_client b n d) eqn:E; simpl; [assumption|].
  now rewrite E, IH.
Qed.

(** C5.  For a caller the access check lets through: Subscribe from an
    endpoint already in the registry is answered with AlreadySubscribed
    and leaves the manager, hence the registry, as it was; Unsubscribe from
    an endpoint not in it is answered with NotSubscribed.  A Subscribe from
    an endpoint not yet in the registry adds it and sends the empty method
    return, and an Unsubscribe from an endpoint in the registry takes it
    out and sends the empty method return. *)
Theorem subscribe_unsubscribe :
  forall (C : Collaborators) (bus : sd_bus) (message : sd_bus_message)
         (w : World),
    0 <= selinux_access_check_r C bus message "status" ->
    let present :=
      existsb (same_client bus (sender message)) (subscribed (manager w)) in
    let sent := sd_bus_send_r C bus None (empty_return message) in
    (present = true ->
     method_subscribe C bus message w
     = (Normal (- bus_error_name_to_errno C BUS_ERROR_ALREADY_SUBSCRIBED),
        fault w
          (mk_error BUS_ERROR_ALREADY_SUBSCRIBED
             "Client is already subscribed." [])
          [EvAccessCheck bus "status"]))
    /\ (present = false ->
        method_unsubscribe C bus message w
        = (Normal (- bus_error_name_to_errno C BUS_ERROR_NOT_SUBSCRIBED),
           fault w
             (mk_error BUS_ERROR_NOT_SUBSCRIBED "Client is not subscribed." [])
             [EvAccessCheck bus "status"]))
    /\ (present = false ->
        0 <= sd_bus_message_new_method_return_r C message ->
        0 <= sent ->
        exists w',
          method_subscribe C bus message w = (Normal sent, w')
          /\ subscribed (manager w')
             = subscribed (manager w) ++ [mk_client bus (sender message)]
          /\ existsb (same_client bus (sender message))
               (subscribed (manager w')) = true
          /\ error w' = error w
          /\ trace w'
             = trace w ++ [EvAccessCheck bus "status";
                           EvSend bus None (empty_return message)])
    /\ (present = true ->
        0 <= sd_bus_message_new_method_return_r C message ->
        0 <= sent ->
        exists w',
          method_unsubscribe C bus message w = (Normal sent, w')
          /\ subscribed (manager w')
             = filter (fun d => negb (same_client bus (sender message) d))
                 (subscribed (manager w))
          /\ existsb (same_client bus (sender message))
               (subscribed (manager w')) = false
          /\ error w' = error w
          /\ trace w'
             = trace w ++ [EvAccessCheck bus "status";
                           EvSend bus None (empty_return message)]).
Proof.
  intros C bus message w Hacc present sent. subst present sent.
  apply Z.ltb_ge in Hacc.
  repeat split.
  - intros Hp. unfold method_subscribe, bus_client_track,
      sd_bus_message_get_sender. run_monad. rewrite Hacc; cbn.
    now rewrite Hp.
  - intros Hp. unfold method_unsubscribe, bus_client_untrack,
      sd_bus_message_get_sender. run_monad. rewrite Hacc; cbn.
    now rewrite Hp.
  - intros Hp Hnew _. apply Z.ltb_ge in Hnew.
    unfold method_subscribe, bus_client_track, sd_bus_message_get_sender,
      sd_bus_message_new_method_return, empty_return.
    run_monad. rewrite Hacc; cbn. rewrite Hp; cbn. rewrite Hnew; cbn.
    eexists; split; [reflexivity|]; cbn.
    repeat split; [apply existsb_after_track | now rewrite <- app_assoc].
  - intros Hp Hnew _. apply Z.ltb_ge in Hnew.
    unfold method_unsubscribe, bus_client_untrack, sd_bus_message_get_sender,
      sd_bus_message_new_method_return, empty_return.
    run_monad. rewrite Hacc; cbn. rewrite Hp; cbn. rewrite Hnew; cbn.
    eexists; split; [reflexivity|]; cbn.
    repeat split; [apply existsb_after_untrack | now rewrite <- app_assoc].
Qed.

Lemma subscribe_unsubscribe_witness :
  error (snd (method_subscribe obliging 1%nat plain_call subscribed_world))
  = Some (mk_error BUS_ERROR_ALREADY_SUBSCRIBED
            "Client is already subscribed." [])
  /\ error (snd (method_unsubscribe obliging 2%nat plain_call
                   subscribed_world))
     = Some (mk_error BUS_ERROR_NOT_SUBSCRIBED "Client is not subscribed." [])
  /\ subscribed (manager (snd (method_subscribe obliging 2%nat plain_call
                                 subscribed_world)))
     = [mk_client 1%nat ":1.10"; mk_client 2%nat ":1.10"]
  /\ subscribed (manager (snd (method_unsubscribe obliging 1%nat plain_call
                                 subscribed_world)))
     = [].
Proof.
  assert (Hacc : forall b,
             0 <= selinux_access_check_r obliging b plain_call "status")
    by (intros; simpl; lia).
  destruct (subscribe_unsubscribe obliging 1%nat plain_call subscribed_world
              (Hacc _)) as [S1 [_ [_ U1]]].
  destruct (subscribe_unsubscribe obliging 2%nat plain_call subscribed_world
              (Hacc _)) as [_ [U2 [S2 _]]].
  split; [|split; [|split]].
  - rewrite S1; reflexivity.
  - rewrite U2; reflexivity.
  - destruct S2 as [w' [E [Hs _]]]; [reflexivity | simpl; lia | simpl; lia |].
    rewrite E; simpl. rewrite Hs; reflexivity.
  - destruct U1 as [w' [E [Hs _]]]; [reflexivity | simpl; lia | simpl; lia |].
    rewrite E; simpl. rewrite Hs; reflexivity.
Defined.

(** *** Lifecycle requests *)

(** X5.  Reboot, PowerOff, Halt and KExec, asked by a caller the access
    check lets through: a manager that is not the system manager refuses with
    NotSupported and stays as it was; the system manager records the exit
    code of the request and sends the empty method return. *)
Lemma system_only_gate :
  forall (C : Collaborators) h verb code text,
    In (h, verb, code, text) (system_only C) ->
    forall (bus : sd_bus) (message : sd_bus_message) (w : World),
      0 <= selinux_access_check_r C bus message verb ->
      (running_as (manager w) = SYSTEMD_USER ->
       h bus message w
       = (Normal (- bus_error_name_to_errno C SD_BUS_ERROR_NOT_SUPPORTED),
          fault w (mk_error SD_BUS_ERROR_NOT_SUPPORTED text [])
            [EvAccessCheck bus verb]))
      /\ (running_as (manager w) = SYSTEMD_SYSTEM ->
          manager (snd (h bus message w)) = set_exit_code (manager w) code).
Proof.
  intros C h verb code text Hin bus message w Hacc.
  apply Z.ltb_ge in Hacc.
  simpl in Hin.
  destruct Hin as [E|[E|[E|[E|[]]]]]; inversion E; subst; clear E;
    (split; intros Hmode;
     [ unfold method_reboot, method_poweroff, method_halt, method_kexec,
         is_system; run_monad; rewrite Hacc; cbn; now rewrite Hmode
     | unfold method_reboot, method_poweroff, method_halt, method_kexec,
         is_system, sd_bus_message_new_method_return; run_monad;
       rewrite Hacc; cbn; rewrite Hmode; cbn;
       destruct (sd_bus_message_new_method_return_r C message <? 0);
       reflexivity ]).
Qed.

(** X6.  Exit is the mirror image: the system manager refuses it with
    NotSupported and stays as it was, any other manager records
    [MANAGER_EXIT]. *)
Lemma exit_gate :
  forall (C : Collaborators) (bus : sd_bus) (message : sd_bus_message)
         (w : World),
    0 <= selinux_access_check_r C bus message "halt" ->
    (running_as (manager w) = SYSTEMD_SYSTEM ->
     method_exit C bus message w
     = (Normal (- bus_error_name_to_errno C SD_BUS_ERROR_NOT_SUPPORTED),
        fault w
          (mk_error SD_BUS_ERROR_NOT_SUPPORTED
             "Exit is only supported for user service managers." [])
          [EvAccessCheck bus "halt"]))
    /\ (running_as (manager w) = SYSTEMD_USER ->
        manager (snd (method_exit C bus message w))
        = set_exit_code (manager w) MANAGER_EXIT).
Proof.
  intros C bus message w Hacc. apply Z.ltb_ge in Hacc.
  split; intros Hmode;
    unfold method_exit, is_system, sd_bus_message_new_method_return;
    run_monad; rewrite Hacc; cbn; rewrite Hmode; cbn.
  - reflexivity.
  - destruct (sd_bus_message_new_method_return_r C message <? 0);
      reflexivity.
Qed.

(** X7.  SwitchRoot has the same gate as Reboot: a manager that is not
    the system manager refuses it with NotSupported before it reads the
    arguments, in the words of KExec's refusal. *)
Lemma switch_root_gate :
  forall (C : Collaborators) (bus : sd_bus) (message : sd_bus_message)
         (w : World),
    0 <= selinux_access_check_r C bus message "reboot" ->
    running_as (manager w) = SYSTEMD_USER ->
    method_switch_root C bus message w
    = (Normal (- bus_error_name_to_errno C SD_BUS_ERROR_NOT_SUPPORTED),
       fault w
         (mk_error SD_BUS_ERROR_NOT_SUPPORTED
            "KExec is only supported for system managers." [])
         [EvAccessCheck bus "reboot"]).
Proof.
  intros C bus message w Hacc Hmode. apply Z.ltb_ge in Hacc.
  unfold method_switch_root, is_system. run_monad.
  rewrite Hacc; cbn. now rewrite Hmode.
Qed.

(** No SwitchRoot request, whatever it asks and however it ends, touches
    the exit code. *)
Lemma switch_root_keeps_exit_code :
  forall (C : Collaborators) (bus : sd_bus) (message : sd_bus_message)
         (w : World),
    exit_code (manager (snd (method_switch_root C bus message w)))
    = exit_code (manager w).
Proof.
  intros C bus message w.
  unfold method_switch_root, switch_root_commit, sd_bus_message_read_ss,
    sd_bus_message_new_method_return, is_system.
  run_monad.
  repeat (match goal with
          | |- context [if ?b then _ else _] => destruct b; cbn
          | |- context [match ?x with _ => _ end] => destruct x; cbn
          end; try reflexivity).
Qed.

(** C8, where the code departs from it.  The system manager accepts this
    SwitchRoot request: the new root is stored and the empty method
    return is sent, and the exit code is still [MANAGER_RUNNING]; nothing
    in [method_switch_root] records [MANAGER_SWITCH_ROOT], unlike its
    siblings Reboot, PowerOff, Halt, KExec and Exit. *)
Theorem switch_root_records_no_exit_code :
  method_switch_root obliging 1%nat switch_root_call
    (fresh_world (idle_manager SYSTEMD_SYSTEM [] [] None))
  = (Normal 0,
     mk_world
       (mk_manager SYSTEMD_SYSTEM MANAGER_RUNNING [] [] [] [] None None None
          (Some "/sysroot") None)
       None
       [EvAccessCheck 1%nat "reboot"; EvPathIsOsTree "/sysroot";
        EvSend 1%nat None (empty_return (mk_message ":1.9" []))]).
Proof. reflexivity. Qed.

(** *** ListUnits *)








(** *** Fan-out of an arbitrary callback *)

Section FanOutFrame.

Variable send_message : send_message_t.
Variable res : sd_bus -> option string -> Z.
Variable evs : sd_bus -> option string -> list event.
Hypothesis send_frame :
  forall b d w, send_message b d w = (Normal (res b d), add_events w (evs b d)).

Lemma foreach_private_bus_frame l :
  forall rest r0 E0,
    (forall w, rest w = (Normal r0, add_events w E0)) ->
    exists r E,
      (forall w,
         foreach_private_bus send_message l rest w
         = (Normal r, add_events w E))
      /\ (forall e, In e E -> In e E0 \/ exists b d, In e (evs b d)).
Proof.
  induction l as [|b l IH]; intros rest r0 E0 Hrest; simpl.
  - exists r0, E0. split; auto.
  - destruct (res b None <? 0) eqn:Hb.
    + exists (res b None), (evs b None). split.
      * intros w. unfold bind. now rewrite send_frame, Hb.
      * intros e He. right. eauto.
    + destruct (IH rest r0 E0 Hrest) as [r [E [Hrun HE]]].
      exists r, (evs b None ++ E). split.
      * intros w. unfold bind. rewrite send_frame, Hb, Hrun.
        now rewrite add_events_twice.
      * intros e He. apply in_app_or in He. destruct He as [He|He]; eauto.
Qed.

(** The fan-out changes neither the manager nor the error slot; what it
    returns and what it sends depend on the manager alone, and all it
    sends comes from the callback. *)
Lemma foreach_client_frame (m : Manager) :
  exists r E,
    (forall w, manager w = m ->
               bus_manager_foreach_client send_message w
               = (Normal r, add_events w E))
    /\ (forall e, In e E -> exists b d, In e (evs b d)).
Proof.
  unfold bus_manager_foreach_client.
  destruct (set_size (subscribed m) <=? 0) eqn:H0.
  { exists 0, []. split; [|intros e []].
    intros w <-. unfold bind, get_manager. rewrite H0.
    unfold ret. now rewrite add_events_nil. }
  destruct (set_size (subscribed m) =? 1) eqn:H1.
  { destruct (set_first (subscribed m)) as [d|] eqn:Hs.
    - exists (res (bus d) (if isempty (name d) then None else Some (name d))),
             (evs (bus d) (if isempty (name d) then None else Some (name d))).
      split; [|eauto].
      intros w <-. unfold bind, get_manager. rewrite H0, H1, Hs.
      apply send_frame.
    - destruct (subscribed m); [discriminate H0 | discriminate Hs]. }
  destruct (api_bus m) as [a|] eqn:Ha.
  - destruct (foreach_private_bus_frame (private_buses m)
                (send_message a None) (res a None) (evs a None))
      as [r [E [Hrun HE]]]; [intros; apply send_frame|].
    exists r, E. split.
    + intros w <-. unfold bind, get_manager. rewrite H0, H1, Ha.
      apply Hrun.
    + intros e He. destruct (HE e He) as [H|H]; eauto.
  - destruct (foreach_private_bus_frame (private_buses m) (ret 0) 0 [])
      as [r [E [Hrun HE]]].
    { intros w. unfold ret. now rewrite add_events_nil. }
    exists r, E. split.
    + intros w <-. unfold bind, get_manager. rewrite H0, H1, Ha.
      apply Hrun.
    + intros e He. destruct (HE e He) as [[]|H]; eauto.
Qed.

End FanOutFrame.

(** *** Unit-file methods *)

Lemma send_unit_files_changed_frame (C : Collaborators) :
  forall b d w,
    send_unit_files_changed C b d w
    = (Normal (changed_result C b d), add_events w (changed_events C b d)).
Proof.
  intros b d w.
  unfold send_unit_files_changed, sd_bus_message_new_signal, changed_result,
    changed_events.
  destruct (sd_bus_message_new_signal_r C b "UnitFilesChanged" <? 0).
  - unfold ret. now rewrite add_events_nil.
  - reflexivity.
Qed.

Lemma filter_all {A} (f : A -> bool) (l : list A) :
  (forall x, In x l -> f x = true) -> filter f l = l.
Proof.
  induction l as [|x l IH]; simpl; intros H; [reflexivity|].
  rewrite (H x) by now left. f_equal. apply IH. intros; apply H; now right.
Qed.

(** One fan-out of UnitFilesChanged: it always returns, leaves manager
    and error slot alone, and sends nothing but that signal. *)
Lemma one_broadcast_frame (C : Collaborators) (m : Manager) :
  (exists r,
     forall w, manager w = m ->
               bus_manager_foreach_client (send_unit_files_changed C) w
               = (Normal r, add_events w (one_broadcast C m)))
  /\ unit_files_changed_in (one_broadcast C m) = one_broadcast C m.
Proof.
  destruct (foreach_client_frame (send_unit_files_changed C)
              (changed_result C) (changed_events C)
              (send_unit_files_changed_frame C) m) as [r [E [Hrun HE]]].
  assert (HEq : one_broadcast C m = E).
  { unfold one_broadcast, events_of. now rewrite (Hrun (fresh_world m)). }
  rewrite HEq. split.
  - exists r. exact Hrun.
  - apply filter_all. intros e He.
    destruct (HE e He) as [b [d Hin]]. unfold changed_events in Hin.
    destruct (sd_bus_message_new_signal_r C b "UnitFilesChanged" <? 0);
      [destruct Hin|].
    destruct Hin as [<-|[]]. reflexivity.
Qed.

Lemma sd_bus_message_append_kind C msg vs :
  kind (snd (sd_bus_message_append C msg vs)) = kind msg.
Proof.
  unfold sd_bus_message_append.
  destruct (sd_bus_message_append_r C msg vs <? 0); [reflexivity|].
  destruct (open_array msg); reflexivity.
Qed.

Lemma sd_bus_message_open_container_kind C msg contents :
  kind (snd (sd_bus_message_open_container C msg contents)) = kind msg.
Proof.
  unfold sd_bus_message_open_container.
  destruct (sd_bus_message_open_container_r C msg contents <? 0);
    reflexivity.
Qed.

Lemma sd_bus_message_close_container_kind C msg :
  kind (snd (sd_bus_message_close_container C msg)) = kind msg.
Proof.
  unfold sd_bus_message_close_container.
  destruct (sd_bus_message_close_container_r C msg <? 0); [reflexivity|].
  destruct (open_array msg); reflexivity.
Qed.

Lemma append_changes_kind C changes :
  forall msg, kind (snd (append_changes C changes msg)) = kind msg.
Proof.
  induction changes as [|c changes IH]; intros msg; simpl; [reflexivity|].
  match goal with
  | |- context [sd_bus_message_append C msg ?vs] =>
      pose proof (sd_bus_message_append_kind C msg vs) as Hk;
      destruct (sd_bus_message_append C msg vs) as [r reply]
  end.
  simpl in Hk. destruct (r <? 0); simpl; [assumption|].
  now rewrite IH.
Qed.

Lemma method_return_is_no_signal b d msg call member :
  kind msg = MethodReturn call -> is_signal member (EvSend b d msg) = false.
Proof. destruct msg as [k ? ?]; simpl; now intros ->. Qed.

(** The reply with the changes: the one place the unit-file methods
    broadcast from, and only if there is a change. *)
Lemma reply_unit_file_changes_signals (C : Collaborators) :
  forall bus message carries changes w,
    exists o E,
      reply_unit_file_changes_and_free C bus message carries changes w
      = (o, add_events w E)
      /\ unit_files_changed_in E
         = match changes with
           | [] => []
           | _ :: _ => one_broadcast C (manager w)
           end.
Proof.
  intros bus message carries changes w.
  unfold reply_unit_file_changes_and_free.
  match goal with
  | |- exists o E, bind _ (fun _ => ?tail) w = _ /\ _ =>
      assert (Htail : forall w1, exists o E',
                 tail w1 = (o, add_events w1 E')
                 /\ unit_files_changed_in E' = [])
  end.
  { intros w1. unfold sd_bus_message_new_method_return; cbn.
    assert (Hret : forall r : Z, exists o E',
               ret r w1 = (o, add_events w1 E')
               /\ unit_files_changed_in E' = []).
    { intros r. exists (Normal r), []. unfold ret.
      now rewrite add_events_nil. }
    destruct (sd_bus_message_new_method_return_r C message <? 0); [apply Hret|].
    set (reply0 := mk_out (MethodReturn message) [] None).
    assert (K0 : kind reply0 = MethodReturn message) by reflexivity.
    clearbody reply0.
    match goal with
    | |- context [if 0 <=? carries then ?a else ?b] =>
        assert (K1 : kind (snd (if 0 <=? carries then a else b))
                     = MethodReturn message)
          by (destruct (0 <=? carries);
              [now rewrite sd_bus_message_append_kind | assumption]);
        destruct (if 0 <=? carries then a else b) as [r1 reply1]
    end.
    simpl in K1. destruct (r1 <? 0); [apply Hret|].
    pose proof (sd_bus_message_open_container_kind C reply1 "(sss)") as K2.
    destruct (sd_bus_message_open_container C reply1 "(sss)") as [r2 reply2].
    simpl in K2. rewrite K1 in K2. destruct (r2 <? 0); [apply Hret|].
    pose proof (append_changes_kind C changes reply2) as K3.
    destruct (append_changes C changes reply2) as [r3 reply3].
    simpl in K3. rewrite K2 in K3. destruct (r3 <? 0); [apply Hret|].
    pose proof (sd_bus_message_close_container_kind C reply3) as K4.
    destruct (sd_bus_message_close_container C reply3) as [r4 reply4].
    simpl in K4. rewrite K3 in K4. destruct (r4 <? 0); [apply Hret|].
    exists (Normal (sd_bus_send_r C bus None reply4)),
           [EvSend bus None reply4].
    split; [reflexivity|].
    unfold unit_files_changed_in. cbn [filter].
    now rewrite (method_return_is_no_signal _ _ _ message). }
  destruct changes as [|c changes].
  - change (0 <? Z.of_nat (@List.length UnitFileChange [])) with false.
    unfold bind at 1. unfold ret at 1.
    destruct (Htail w) as [o [E' [Hrun Hsig]]].
    exists o, E'. now rewrite Hrun.
  - replace (0 <? Z.of_nat (List.length (c :: changes))) with true
      by (symmetry; apply Z.ltb_lt; simpl; lia).
    destruct (one_broadcast_frame C (manager w)) as [[r Hfan] Hall].
    unfold bind. rewrite (Hfan w eq_refl).
    destruct (Htail (add_events w (one_broadcast C (manager w))))
      as [o [E' [Hrun Hsig]]].
    exists o, (one_broadcast C (manager w) ++ E').
    rewrite Hrun, add_events_twice. split; [reflexivity|].
    unfold unit_files_changed_in in *. rewrite filter_app, Hall, Hsig.
    apply app_nil_r.
Qed.

Ltac after_reply C bus message w :=
  match goal with
  | |- context [reply_unit_file_changes_and_free C bus ?msg ?cii ?chs ?w1] =>
      let o := fresh "o" in
      let E := fresh "E" in
      let Hrun := fresh "Hrun" in
      let Hsig := fresh "Hsig" in
      destruct (reply_unit_file_changes_signals C bus msg cii chs w1)
        as [o [E [Hrun Hsig]]];
      rewrite Hrun; cbn;
      eexists; split;
      [ rewrite <- !app_assoc; reflexivity
      | cbn in Hsig |- *; unfold unit_files_changed_in in *; cbn; exact Hsig ]
  end.

Lemma enable_generic_signals (C : Collaborators) :
  forall verb call carries bus message w r changes,
    0 <= selinux_access_check_r C bus message verb ->
    operation_force call (manager w) message = Some (r, changes) ->
    exists E,
      trace (snd (method_enable_unit_files_generic C bus message verb call
                    carries w))
      = trace w ++ E
      /\ unit_files_changed_in E
         = if r <? 0 then []
           else match changes with
                | [] => []
                | _ :: _ => one_broadcast C (manager w)
                end.
Proof.
  intros verb call carries bus message w r changes Hacc Hop.
  apply Z.ltb_ge in Hacc.
  unfold method_enable_unit_files_generic, operation_force in *.
  unfold bind at 1. unfold selinux_access_check, bind, record, ret; cbn.
  rewrite Hacc.
  destruct (sd_bus_message_read_strv message) as [[r1 l] m1].
  destruct (r1 <? 0); [discriminate Hop|].
  destruct (sd_bus_message_read_bb m1) as [[[r2 runtime] force] m2].
  destruct (r2 <? 0); [discriminate Hop|].
  injection Hop as Hop. unfold get_manager; cbn. rewrite Hop.
  destruct (r <? 0).
  - cbn. eexists; split; [rewrite <- app_assoc; reflexivity | reflexivity].
  - after_reply C bus message w.
Qed.

Lemma disable_generic_signals (C : Collaborators) :
  forall verb call bus message w r changes,
    0 <= selinux_access_check_r C bus message verb ->
    operation_plain call (manager w) message = Some (r, changes) ->
    exists E,
      trace (snd (method_disable_unit_files_generic C bus message verb call w))
      = trace w ++ E
      /\ unit_files_changed_in E
         = if r <? 0 then []
           else match changes with
                | [] => []
                | _ :: _ => one_broadcast C (manager w)
                end.
Proof.
  intros verb call bus message w r changes Hacc Hop.
  apply Z.ltb_ge in Hacc.
  unfold method_disable_unit_files_generic, operation_plain in *.
  unfold bind at 1. unfold selinux_access_check, bind, record, ret; cbn.
  rewrite Hacc.
  destruct (sd_bus_message_read_strv message) as [[r1 l] m1].
  destruct (r1 <? 0); [discriminate Hop|].
  destruct (sd_bus_message_read_b m1) as [[r2 runtime] m2].
  destruct (r2 <? 0); [discriminate Hop|].
  injection Hop as Hop. unfold get_manager; cbn. rewrite Hop.
  destruct (r <? 0).
  - cbn. eexists; split; [rewrite <- app_assoc; reflexivity | reflexivity].
  - after_reply C bus message w.
Qed.

Lemma set_default_target_signals (C : Collaborators) :
  forall bus message w r changes,
    0 <= selinux_access_check_r C bus message "enable" ->
    operation_set_default C (manager w) message = Some (r, changes) ->
    exists E,
      trace (snd (method_set_default_target C bus message w)) = trace w ++ E
      /\ unit_files_changed_in E
         = if r <? 0 then []
           else match changes with
                | [] => []
                | _ :: _ => one_broadcast C (manager w)
                end.
Proof.
  intros bus message w r changes Hacc Hop.
  apply Z.ltb_ge in Hacc.
  unfold method_set_default_target, operation_set_default in *.
  unfold bind at 1. unfold selinux_access_check, bind, record, ret; cbn.
  rewrite Hacc.
  destruct (sd_bus_message_read_sb message) as [[[r1 n] force] m1].
  destruct (r1 <? 0); [discriminate Hop|].
  injection Hop as Hop. unfold get_manager; cbn. rewrite Hop.
  destruct (r <? 0).
  - cbn. eexists; split; [rewrite <- app_assoc; reflexivity | reflexivity].
  - after_reply C bus message w.
Qed.

(** C7.  For each of the eight unit-file methods, asked by a caller the
    access check lets through with arguments that decode: if the
    operation leaves no change, no UnitFilesChanged signal is sent; if it
    succeeds and leaves changes, the UnitFilesChanged signals sent are
    those of exactly one fan-out over the manager's clients. *)
Theorem unit_files_changed_once :
  forall (C : Collaborators) (k : unit_file_method) (bus : sd_bus)
         (message : sd_bus_message) (w : World) (r : Z)
         (changes : list UnitFileChange),
    0 <= selinux_access_check_r C bus message (verb_of k) ->
    unit_file_operation C k (manager w) message = Some (r, changes) ->
    exists E,
      trace (snd (handler_of C k bus message w)) = trace w ++ E
      /\ (changes = [] -> unit_files_changed_in E = [])
      /\ (0 <= r -> changes <> [] ->
          unit_files_changed_in E = one_broadcast C (manager w)).
Proof.
  intros C k bus message w r changes Hacc Hop.
  assert (H : exists E,
             trace (snd (handler_of C k bus message w)) = trace w ++ E
             /\ unit_files_changed_in E
                = if r <? 0 then []
                  else match changes with
                       | [] => []
                       | _ :: _ => one_broadcast C (manager w)
                       end).
  { destruct k; simpl in Hacc, Hop |- *;
      first [ eapply enable_generic_signals; eassumption
            | eapply disable_generic_signals; eassumption
            | eapply set_default_target_signals; eassumption ]. }
  destruct H as [E [Htr Hsig]]. exists E. split; [assumption|]. split.
  - intros ->. rewrite Hsig. now destruct (r <? 0).
  - intros Hr Hne. rewrite Hsig.
    apply Z.ltb_ge in Hr. rewrite Hr.
    destruct changes; [now elim Hne | reflexivity].
Qed.

Lemma unit_files_changed_once_witness :
  unit_files_changed_in
    (trace (snd (method_enable_unit_files obliging 1%nat enable_call
                   (fresh_world
                      (idle_manager SYSTEMD_SYSTEM two_subscribers
                         [1; 2]%nat (Some 9%nat))))))
  = to_everybody unit_files_changed_signal [1; 2; 9]%nat.
Proof.
  destruct (unit_files_changed_once obliging EnableUnitFiles 1%nat
              enable_call
              (fresh_world
                 (idle_manager SYSTEMD_SYSTEM two_subscribers [1; 2]%nat
                    (Some 9%nat)))
              1 (link_each ["foo.service"]))
    as [E [Htr [_ Hsig]]].
  - simpl; lia.
  - reflexivity.
  - change (handler_of obliging EnableUnitFiles)
      with (method_enable_unit_files obliging) in Htr.
    rewrite Htr. cbn [fresh_world trace app].
    rewrite Hsig; [reflexivity | lia | discriminate].
Defined.

(** *** Where the access check stands *)

Section Emits.

Variable P : event -> Prop.









End Emits.










(** ** Further properties of the fan-out *)

Section FanOutOrder.

Variable send_message : send_message_t.
Variable res : sd_bus -> option string -> Z.
Variable sig : out_message.
Hypothesis send_once :
  forall b d w,
    send_message b d w = (Normal (res b d), add_events w [EvSend b d sig]).

Lemma foreach_private_bus_prefix (api : option sd_bus) :
  forall l w,
    exists k r,
      (k <= List.length (l ++ match api with Some a => [a] | None => [] end))%nat
      /\ foreach_private_bus send_message l
           (match api with
            | Some a => send_message a None
            | None => ret 0
            end) w
         = (Normal r,
            add_events w
              (to_everybody sig
                 (firstn k
                    (l ++ match api with Some a => [a] | None => [] end))))
      /\ (0 <= r ->
          k = List.length
                (l ++ match api with Some a => [a] | None => [] end)).
Proof.
  induction l as [|b l IH]; intros w; simpl.
  - destruct api as [a|].
    + exists 1%nat, (res a None). rewrite send_once. simpl. auto.
    + exists 0%nat, 0. unfold ret. simpl. rewrite add_events_nil. auto.
  - unfold bind. rewrite send_once.
    destruct (res b None <? 0) eqn:Hb.
    + exists 1%nat, (res b None). simpl. repeat split.
      * lia.
      * apply Z.ltb_lt in Hb. lia.
    + destruct (IH (add_events w [EvSend b None sig])) as [k [r [Hk [Hrun Hr]]]].
      exists (S k), r. rewrite Hrun, add_events_twice. simpl.
      repeat split; auto. lia.
Qed.

(** X1.  With two or more subscribers the fan-out addresses the open
    connections in their order, the private ones and then the api bus,
    each without destination, and stops somewhere along that list: what
    it has sent is always a prefix of it.  It always returns, and a
    result that is not negative means the whole list was addressed. *)
Theorem fan_out_addresses_a_prefix :
  forall w : World,
    (2 <= List.length (subscribed (manager w)))%nat ->
    exists k r,
      (k <= List.length (open_connections (manager w)))%nat
      /\ bus_manager_foreach_client send_message w
         = (Normal r,
            add_events w
              (to_everybody sig (firstn k (open_connections (manager w)))))
      /\ (0 <= r -> k = List.length (open_connections (manager w))).
Proof.
  intros w Hn.
  unfold bus_manager_foreach_client, bind, get_manager.
  destruct (set_size_ge_2 _ Hn) as [H0 H1]. rewrite H0, H1.
  apply foreach_private_bus_prefix.
Qed.

(** X2.  Whatever the registry holds, the fan-out returns: the
    [assert_se] of the single-subscriber branch cannot fail.  It leaves
    the manager and the error slot as they were, and every message it
    sends is the callback's. *)
Theorem fan_out_always_returns :
  forall w : World,
    exists r targets,
      bus_manager_foreach_client send_message w
      = (Normal r,
         add_events w (map (fun t => EvSend (fst t) (snd t) sig) targets)).
Proof.
  intros w.
  destruct (foreach_client_frame send_message res
              (fun b d => [EvSend b d sig]) send_once (manager w))
    as [r [E [Hrun HE]]].
  assert (Ht : exists targets,
             E = map (fun t => EvSend (fst t) (snd t) sig) targets).
  { clear Hrun. induction E as [|e E IH].
    - exists []. reflexivity.
    - destruct IH as [ts ->]; [intros; apply HE; now right|].
      destruct (HE e (or_introl eq_refl)) as [b [d [<-|[]]]].
      exists ((b, d) :: ts). reflexivity. }
  destruct Ht as [targets ->].
  exists r, targets. now apply Hrun.
Qed.

End FanOutOrder.

Lemma fan_out_addresses_a_prefix_witness :
  exists k r,
    bus_manager_foreach_client (send_unit_files_changed broken_pipe_1)
      (fresh_world
         (idle_manager SYSTEMD_SYSTEM two_subscribers [0; 1; 2]%nat
            (Some 9%nat)))
    = (Normal r,
       add_events
         (fresh_world
            (idle_manager SYSTEMD_SYSTEM two_subscribers [0; 1; 2]%nat
               (Some 9%nat)))
         (to_everybody unit_files_changed_signal
            (firstn k [0; 1; 2; 9]%nat))).
Proof.
  destruct (fan_out_addresses_a_prefix
              (send_unit_files_changed broken_pipe_1)
              (fun b _ => if Nat.eqb b 1 then -107 else 0)
              unit_files_changed_signal
              (send_unit_files_changed_once 0 _)
              (fresh_world
                 (idle_manager SYSTEMD_SYSTEM two_subscribers [0; 1; 2]%nat
                    (Some 9%nat))))
    as [k [r [_ [Hrun _]]]].
  - simpl; lia.
  - exists k, r. exact Hrun.
Defined.

Lemma fan_out_always_returns_witness :
  exists r targets,
    bus_manager_foreach_client (send_unit_files_changed obliging)
      subscribed_world
    = (Normal r,
       add_events subscribed_world
         (map (fun t => EvSend (fst t) (snd t) unit_files_changed_signal)
            targets)).
Proof.
  exact (fan_out_always_returns
           (send_unit_files_changed obliging) (fun _ _ => 0)
           unit_files_changed_signal
           (send_unit_files_changed_once 0 _) subscribed_world).
Defined.

(** ** Reload and Reexecute *)

(** X3.  A Reload request that passes the access check while no reply
    is held is not answered: the handler sends nothing, keeps the method
    return for the call together with the connection it came in on,
    records [MANAGER_RELOAD] and returns 1.  If the method return cannot
    be built the error is returned and the manager stays as it was. *)
Theorem reload_defers_reply :
  forall (C : Collaborators) (bus : sd_bus) (message : sd_bus_message)
         (w : World),
    0 <= selinux_access_check_r C bus message "reload" ->
    queued_message (manager w) = None ->
    method_reload C bus message w
    = if sd_bus_message_new_method_return_r C message <? 0
      then (Normal (sd_bus_message_new_method_return_r C message),
            add_events w [EvAccessCheck bus "reload"])
      else (Normal 1,
            mk_world
              (set_exit_code
                 (set_queued_message (manager w)
                    (Some (empty_return message)) (Some bus))
                 MANAGER_RELOAD)
              (error w)
              (trace w ++ [EvAccessCheck bus "reload"])).
Proof.
  intros C bus message w Hacc Hq. apply Z.ltb_ge in Hacc.
  unfold method_reload, sd_bus_message_new_method_return, empty_return.
  run_monad. rewrite Hacc; cbn. rewrite Hq; cbn.
  destruct (sd_bus_message_new_method_return_r C message <? 0); reflexivity.
Qed.

Lemma reload_defers_reply_witness :
  method_reload obliging 4%nat plain_call
    (fresh_world (idle_manager SYSTEMD_SYSTEM [] [] None))
  = (Normal 1,
     mk_world
       (mk_manager SYSTEMD_SYSTEM MANAGER_RELOAD [] [] [] [] None
          (Some (empty_return plain_call)) (Some 4%nat) None None)
       None [EvAccessCheck 4%nat "reload"]).
Proof.
  exact (reload_defers_reply obliging 4%nat plain_call
           (fresh_world (idle_manager SYSTEMD_SYSTEM [] [] None))
           ltac:(simpl; lia) eq_refl).
Defined.

(** X4.  Reexecute never answers: whatever the request and the state, the
    handler sends nothing on any connection.  A request that passes the
    access check records [MANAGER_REEXECUTE] and returns 1, one that does
    not changes nothing. *)
Theorem reexecute_sends_nothing :
  forall (C : Collaborators) (bus : sd_bus) (message : sd_bus_message)
         (w : World),
    method_reexecute C bus message w
    = if selinux_access_check_r C bus message "reload" <? 0
      then (Normal (selinux_access_check_r C bus message "reload"),
            add_events w [EvAccessCheck bus "reload"])
      else (Normal 1,
            mk_world (set_exit_code (manager w) MANAGER_REEXECUTE) (error w)
              (trace w ++ [EvAccessCheck bus "reload"])).
Proof.
  intros C bus message w. unfold method_reexecute. run_monad.
  destruct (selinux_access_check_r C bus message "reload" <? 0); reflexivity.
Qed.

(** ** Lifecycle requests, concretely *)

Lemma system_only_gate_witness :
  method_halt obliging 1%nat plain_call subscribed_world
  = (Normal (-95),
     fault subscribed_world
       (mk_error SD_BUS_ERROR_NOT_SUPPORTED
          "Halt is only supported for system managers." [])
       [EvAccessCheck 1%nat "halt"])
  /\ exit_code (manager (snd (method_poweroff obliging 1%nat plain_call
                                (fresh_world small_registry))))
     = MANAGER_POWEROFF.
Proof.
  split.
  - apply (system_only_gate obliging (method_halt obliging) "halt"
             MANAGER_HALT "Halt is only supported for system managers.").
    + simpl; tauto.
    + simpl; lia.
    + reflexivity.
  - destruct (system_only_gate obliging (method_poweroff obliging) "halt"
                MANAGER_POWEROFF
                "Powering off is only supported for system managers.")
      with (bus := 1%nat) (message := plain_call)
           (w := fresh_world small_registry) as [_ H].
    + simpl; tauto.
    + simpl; lia.
    + rewrite H; reflexivity.
Defined.

Lemma exit_gate_witness :
  error (snd (method_exit obliging 1%nat plain_call
                (fresh_world small_registry)))
  = Some (mk_error SD_BUS_ERROR_NOT_SUPPORTED
            "Exit is only supported for user service managers." [])
  /\ exit_code (manager (snd (method_exit obliging 1%nat plain_call
                                subscribed_world)))
     = MANAGER_EXIT.
Proof.
  split.
  - destruct (exit_gate obliging 1%nat plain_call
                (fresh_world small_registry)) as [H _]; [simpl; lia|].
    rewrite H; reflexivity.
  - destruct (exit_gate obliging 1%nat plain_call subscribed_world)
      as [_ H]; [simpl; lia|].
    rewrite H; reflexivity.
Defined.

Lemma switch_root_gate_witness :
  method_switch_root obliging 1%nat switch_root_call subscribed_world
  = (Normal (-95),
     fault subscribed_world
       (mk_error SD_BUS_ERROR_NOT_SUPPORTED
          "KExec is only supported for system managers." [])
       [EvAccessCheck 1%nat "reboot"]).
Proof.
  apply (switch_root_gate obliging 1%nat switch_root_call subscribed_world).
  - simpl; lia.
  - reflexivity.
Defined.

(** ** SwitchRoot past the argument check *)

(** X8.  The safety check of SwitchRoot, for a request that has passed
    the access check, the system-manager gate and the test of the root:
    with an empty init, a root that [path_is_os_tree] does not take for
    an OS tree is refused; an init that is not absolute is refused before
    anything is probed; an init whose file under the root is not
    executable is refused.  Each refusal is InvalidArguments and leaves
    the manager as it was, and of the two probes only the one that
    belongs to the case is made. *)
Theorem switch_root_safety_check :
  forall (C : Collaborators) (bus : sd_bus) (message : sd_bus_message)
         (w : World) (root init : string) (rest : list bus_value),
    0 <= selinux_access_check_r C bus message "reboot" ->
    running_as (manager w) = SYSTEMD_SYSTEM ->
    body message = VString root :: VString init :: rest ->
    path_equal C root "/" = false ->
    path_is_absolute C root = true ->
    (isempty init = true -> path_is_os_tree_r C root = 0 ->
     method_switch_root C bus message w
     = (Normal (- bus_error_name_to_errno C SD_BUS_ERROR_INVALID_ARGS),
        fault w
          (mk_error SD_BUS_ERROR_INVALID_ARGS
             "Specified switch root path %s does not seem to be an OS tree. /etc/os-release is missing."
             [ArgS root])
          [EvAccessCheck bus "reboot"; EvPathIsOsTree root]))
    /\ (isempty init = false -> path_is_absolute C init = false ->
        method_switch_root C bus message w
        = (Normal (- bus_error_name_to_errno C SD_BUS_ERROR_INVALID_ARGS),
           fault w
             (mk_error SD_BUS_ERROR_INVALID_ARGS "Invalid init path %s"
                [ArgS init])
             [EvAccessCheck bus "reboot"]))
    /\ (forall p,
          isempty init = false -> path_is_absolute C init = true ->
          strappend C root init = Some p -> access_X_OK_r C p < 0 ->
          method_switch_root C bus message w
          = (Normal (- bus_error_name_to_errno C SD_BUS_ERROR_INVALID_ARGS),
             fault w
               (mk_error SD_BUS_ERROR_INVALID_ARGS
                  "Specified init binary %s does not exist." [ArgS p])
               [EvAccessCheck bus "reboot"; EvAccess p])).
Proof.
  intros C bus message w root init rest Hacc Hsys Hbody Hne Habs.
  apply Z.ltb_ge in Hacc.
  assert (Hstart :
            method_switch_root C bus message w
            = (if isempty init then
                 t <- path_is_os_tree C root ;;
                 if t =? 0 then
                   sd_bus_error_setf C SD_BUS_ERROR_INVALID_ARGS
                     "Specified switch root path %s does not seem to be an OS tree. /etc/os-release is missing."
                     [ArgS root]
                 else switch_root_commit C bus
                        (mk_message (sender message) rest) root init
               else
                 if negb (path_is_absolute C init) then
                   sd_bus_error_setf C SD_BUS_ERROR_INVALID_ARGS
                     "Invalid init path %s" [ArgS init]
                 else
                   match strappend C root init with
                   | None => ret (- ENOMEM)
                   | Some p =>
                       a <- access_X_OK C p ;;
                       if a <? 0 then
                         sd_bus_error_setf C SD_BUS_ERROR_INVALID_ARGS
                           "Specified init binary %s does not exist."
                           [ArgS p]
                       else switch_root_commit C bus
                              (mk_message (sender message) rest) root init
                   end)
                (add_events w [EvAccessCheck bus "reboot"])).
  { unfold method_switch_root, sd_bus_message_read_ss, is_system.
    unfold bind at 1. unfold selinux_access_check, bind, record, ret; cbn.
    rewrite Hacc; cbn. unfold get_manager; cbn. rewrite Hsys; cbn.
    rewrite Hbody; cbn. rewrite Hne, Habs; cbn. reflexivity. }
  rewrite Hstart. split; [|split].
  - intros He Ht. rewrite He. run_monad. rewrite Ht; cbn.
    now rewrite <- app_assoc.
  - intros He Hrel. rewrite He, Hrel. run_monad. reflexivity.
  - intros p He Hia Hp Hx. rewrite He, Hia, Hp. run_monad.
    apply Z.ltb_lt in Hx. rewrite Hx; cbn. now rewrite <- app_assoc.
Qed.

Lemma switch_root_safety_check_witness :
  error (snd (method_switch_root obliging 1%nat
                (mk_message ":1.9" [VString "/sysroot"; VString "sbin/init"])
                (fresh_world small_registry)))
  = Some (mk_error SD_BUS_ERROR_INVALID_ARGS "Invalid init path %s"
            [ArgS "sbin/init"])
  /\ trace (snd (method_switch_root obliging 1%nat
                   (mk_message ":1.9" [VString "/sysroot"; VString "sbin/init"])
                   (fresh_world small_registry)))
     = [EvAccessCheck 1%nat "reboot"].
Proof.
  pose proof (switch_root_safety_check obliging 1%nat
                (mk_message ":1.9" [VString "/sysroot"; VString "sbin/init"])
                (fresh_world small_registry) "/sysroot" "sbin/init" []
                ltac:(simpl; lia) eq_refl eq_refl eq_refl eq_refl)
    as [_ [H _]].
  split; rewrite H; reflexivity.
Defined.

(** X9.  A SwitchRoot request that passes every check is stored as
    given: the manager's [switch_root] becomes the copy of the root and
    [switch_root_init] the copy of the init, or nothing when the init is
    empty, whatever was stored before; nothing else in the manager
    changes and the empty method return is sent. *)
Theorem switch_root_stores_root_and_init :
  forall (C : Collaborators) (bus : sd_bus) (message : sd_bus_message)
         (w : World) (root init rt : string) (rest : list bus_value),
    0 <= selinux_access_check_r C bus message "reboot" ->
    running_as (manager w) = SYSTEMD_SYSTEM ->
    body message = VString root :: VString init :: rest ->
    path_equal C root "/" = false ->
    path_is_absolute C root = true ->
    strdup C root = Some rt ->
    0 <= sd_bus_message_new_method_return_r C
           (mk_message (sender message) rest) ->
    (isempty init = true -> path_is_os_tree_r C root <> 0 ->
     manager (snd (method_switch_root C bus message w))
     = set_switch_root (manager w) (Some rt) None
     /\ trace (snd (method_switch_root C bus message w))
        = trace w ++ [EvAccessCheck bus "reboot"; EvPathIsOsTree root;
                      EvSend bus None
                        (empty_return (mk_message (sender message) rest))])
    /\ (forall p ri,
          isempty init = false -> path_is_absolute C init = true ->
          strappend C root init = Some p -> 0 <= access_X_OK_r C p ->
          strdup C init = Some ri ->
          manager (snd (method_switch_root C bus message w))
          = set_switch_root (manager w) (Some rt) (Some ri)
          /\ trace (snd (method_switch_root C bus message w))
             = trace w ++ [EvAccessCheck bus "reboot"; EvAccess p;
                           EvSend bus None
                             (empty_return
                                (mk_message (sender message) rest))]).
Proof.
  intros C bus message w root init rt rest Hacc Hsys Hbody Hne Habs Hrt Hnew.
  apply Z.ltb_ge in Hacc. apply Z.ltb_ge in Hnew.
  split.
  - intros He Ht. apply Z.eqb_neq in Ht.
    unfold method_switch_root, switch_root_commit, sd_bus_message_read_ss,
      sd_bus_message_new_method_return, is_system, empty_return.
    run_monad. rewrite Hacc; cbn. rewrite Hsys; cbn. rewrite Hbody; cbn.
    rewrite Hne, Habs; cbn. rewrite He; cbn. rewrite Ht; cbn.
    rewrite Hrt; cbn. rewrite ?He; cbn. rewrite Hnew; cbn.
    split; [reflexivity | now rewrite <- !app_assoc].
  - intros p ri He Hia Hp Hx Hri. apply Z.ltb_ge in Hx.
    unfold method_switch_root, switch_root_commit, sd_bus_message_read_ss,
      sd_bus_message_new_method_return, is_system, empty_return.
    run_monad. rewrite Hacc; cbn. rewrite Hsys; cbn. rewrite Hbody; cbn.
    rewrite Hne, Habs; cbn. rewrite He; cbn. rewrite Hia; cbn.
    rewrite Hp; cbn. rewrite Hx; cbn. rewrite Hrt; cbn. rewrite ?He; cbn.
    rewrite Hri; cbn. rewrite Hnew; cbn.
    split; [reflexivity | now rewrite <- !app_assoc].
Qed.

Lemma switch_root_stores_root_and_init_witness :
  manager (snd (method_switch_root obliging 1%nat
                  (mk_message ":1.9" [VString "/sysroot"; VString "/sbin/init"])
                  (fresh_world small_registry)))
  = set_switch_root small_registry (Some "/sysroot") (Some "/sbin/init").
Proof.
  pose proof (switch_root_stores_root_and_init obliging 1%nat
                (mk_message ":1.9" [VString "/sysroot"; VString "/sbin/init"])
                (fresh_world small_registry) "/sysroot" "/sbin/init"
                "/sysroot" []
                ltac:(simpl; lia) eq_refl eq_refl eq_refl eq_refl eq_refl
                ltac:(simpl; lia))
    as [_ H].
  exact (proj1 (H "/sysroot/sbin/init" "/sbin/init" eq_refl eq_refl eq_refl
                  ltac:(simpl; lia) eq_refl)).
Defined.

(** ** Handlers that only read *)

Section KeepsManager.

Lemma keeps_ret {A} (a : A) : keeps_manager (ret a).
Proof. intros w; reflexivity. Qed.

Lemma keeps_bind {A B} (c : M A) (k : A -> M B) :
  keeps_manager c -> (forall a, keeps_manager (k a)) ->
  keeps_manager (bind c k).
Proof.
  intros Hc Hk w. unfold bind. specialize (Hc w).
  destruct (c w) as [[a|e] w1]; simpl in Hc |- *; [|assumption].
  now rewrite Hk.
Qed.

Lemma keeps_record e : keeps_manager (record e).
Proof. intros w; reflexivity. Qed.

Lemma keeps_get_manager : keeps_manager get_manager.
Proof. intros w; reflexivity. Qed.

Lemma keeps_setf C n fmt args : keeps_manager (sd_bus_error_setf C n fmt args).
Proof. intros w; reflexivity. Qed.

End KeepsManager.

Ltac keeps_step :=
  match goal with
  | |- keeps_manager (ret _) => apply keeps_ret
  | |- keeps_manager (bind _ _) => apply keeps_bind; [|intros]
  | |- keeps_manager (record _) => apply keeps_record
  | |- keeps_manager get_manager => apply keeps_get_manager
  | |- keeps_manager (sd_bus_error_setf _ _ _ _) => apply keeps_setf
  | |- keeps_manager (if ?b then _ else _) => destruct b
  | |- keeps_manager (match ?x with _ => _ end) => destruct x
  | |- keeps_manager _ =>
      progress unfold manager_get_unit, manager_get_job,
        selinux_access_check, selinux_unit_access_check,
        sd_bus_reply_method_return, sd_bus_send, sd_bus_send_to
  end.

(** X10.  GetUnit, GetJob, ListUnits and ListJobs only read: whatever the
    request, the caller and the outcome, the manager is afterwards
    exactly what it was before. *)
Theorem queries_keep_the_manager :
  forall (C : Collaborators) (D : Delegates) (bus : sd_bus)
         (message : sd_bus_message) (w : World),
    manager (snd (method_get_unit C bus message w)) = manager w
    /\ manager (snd (method_get_job C bus message w)) = manager w
    /\ manager (snd (method_list_units C bus message w)) = manager w
    /\ manager (snd (method_list_jobs C D bus message w)) = manager w.
Proof.
  intros C D bus message w.
  split; [|split; [|split]]; revert w;
    match goal with
    | |- forall w, manager (snd (?c w)) = manager w =>
        change (keeps_manager c)
    end;
    unfold method_get_unit, method_get_job, method_list_units,
      method_list_jobs;
    repeat keeps_step.
Qed.

(** ** The reply of the unit-file methods *)

Ltac oracles_ok Hmsg :=
  let Hnew := fresh "Hnew" in
  let Hsig := fresh "Hsig" in
  let Happ := fresh "Happ" in
  let Hopen := fresh "Hopen" in
  let Hclose := fresh "Hclose" in
  pose proof Hmsg as (Hnew & Hsig & Happ & Hopen & Hclose);
  repeat match goal with
         | |- context [sd_bus_message_new_method_return_r ?C ?m <? 0] =>
             rewrite (proj2 (Z.ltb_ge _ _) (Hnew m)); cbn
         | |- context [sd_bus_message_new_signal_r ?C ?b ?m <? 0] =>
             rewrite (proj2 (Z.ltb_ge _ _) (Hsig b m)); cbn
         | |- context [sd_bus_message_append_r ?C ?m ?vs <? 0] =>
             rewrite (proj2 (Z.ltb_ge _ _) (Happ m vs)); cbn
         | |- context [sd_bus_message_open_container_r ?C ?m ?c <? 0] =>
             rewrite (proj2 (Z.ltb_ge _ _) (Hopen m c)); cbn
         | |- context [sd_bus_message_close_container_r ?C ?m <? 0] =>
             rewrite (proj2 (Z.ltb_ge _ _) (Hclose m)); cbn
         end.

Lemma append_changes_rows (C : Collaborators) :
  builds_messages C ->
  forall changes k body items,
    append_changes C changes (mk_out k body (Some items))
    = (0, mk_out k body (Some (items ++ map (change_row C) changes))).
Proof.
  intros Hmsg. induction changes as [|c changes IH]; intros k body items.
  - simpl. now rewrite app_nil_r.
  - simpl. unfold sd_bus_message_append; cbn. oracles_ok Hmsg.
    rewrite IH. unfold change_row at 2. now rewrite <- app_assoc.
Qed.

(** X11.  When no allocation fails, the reply of a unit-file method is
    the method return for the call that holds, after the boolean for
    the methods that report one, an array with one triple of type,
    path and source for each change, in the order of the changes; it is
    sent after the UnitFilesChanged fan-out, which runs only if there is
    a change, and the handler returns what the transport returns for
    it. *)
Theorem reply_carries_every_change :
  forall (C : Collaborators) (bus : sd_bus) (message : sd_bus_message)
         (carries : Z) (changes : list UnitFileChange) (w : World),
    builds_messages C ->
    let reply :=
      mk_out (MethodReturn message)
        ((if 0 <=? carries then [VBool (negb (carries =? 0))] else [])
         ++ [VArray (map (change_row C) changes)])
        None in
    reply_unit_file_changes_and_free C bus message carries changes w
    = (Normal (sd_bus_send_r C bus None reply),
       add_events w
         (match changes with
          | [] => []
          | _ :: _ => one_broadcast C (manager w)
          end ++ [EvSend bus None reply])).
Proof.
  intros C bus message carries changes w Hmsg reply. subst reply.
  unfold reply_unit_file_changes_and_free.
  match goal with
  | |- bind _ (fun _ => ?tail) w = _ =>
      assert (Htail : forall w1,
                 tail w1
                 = (Normal
                      (sd_bus_send_r C bus None
                         (mk_out (MethodReturn message)
                            ((if 0 <=? carries
                              then [VBool (negb (carries =? 0))] else [])
                             ++ [VArray (map (change_row C) changes)])
                            None)),
                    add_events w1
                      [EvSend bus None
                         (mk_out (MethodReturn message)
                            ((if 0 <=? carries
                              then [VBool (negb (carries =? 0))] else [])
                             ++ [VArray (map (change_row C) changes)])
                            None)]))
  end.
  { intros w1.
    unfold sd_bus_message_new_method_return, sd_bus_message_open_container,
      sd_bus_message_close_container, sd_bus_message_append; cbn.
    oracles_ok Hmsg.
    destruct (0 <=? carries); cbn; oracles_ok Hmsg;
      rewrite (append_changes_rows C Hmsg); cbn; oracles_ok Hmsg;
      reflexivity. }
  destruct changes as [|c changes].
  - change (0 <? Z.of_nat (@List.length UnitFileChange [])) with false.
    unfold bind at 1. unfold ret at 1. now rewrite Htail.
  - replace (0 <? Z.of_nat (List.length (c :: changes))) with true
      by (symmetry; apply Z.ltb_lt; simpl; lia).
    destruct (one_broadcast_frame C (manager w)) as [[r Hfan] _].
    unfold bind. rewrite (Hfan w eq_refl), Htail.
    now rewrite add_events_twice.
Qed.

Lemma reply_carries_every_change_witness :
  trace (snd (reply_unit_file_changes_and_free obliging 1%nat plain_call 1
                (link_each ["a.service"; "b.service"])
                subscribed_world))
  = [EvSend 1%nat (Some ":1.10") unit_files_changed_signal;
     EvSend 1%nat None
       (mk_out (MethodReturn plain_call)
          [VBool true;
           VArray
             [change_row obliging
                (mk_change UNIT_FILE_SYMLINK "/etc/systemd/system/a.service"
                   "/usr/lib/systemd/system/a.service");
              change_row obliging
                (mk_change UNIT_FILE_SYMLINK "/etc/systemd/system/b.service"
                   "/usr/lib/systemd/system/b.service")]]
          None)].
Proof.
  rewrite (reply_carries_every_change obliging 1%nat plain_call 1
             (link_each ["a.service"; "b.service"]) subscribed_world).
  - reflexivity.
  - repeat split; intros; simpl; lia.
Defined.

(** X12.  When the operation behind a unit-file method fails, its
    negative result is what the handler returns: no reply is built, no
    signal is sent, and the changes it may have left are not reported.
    The access check and the operation are the only calls made. *)
Theorem unit_file_failure_is_returned :
  forall (C : Collaborators) (k : unit_file_method) (bus : sd_bus)
         (message : sd_bus_message) (w : World) (r : Z)
         (changes : list UnitFileChange),
    0 <= selinux_access_check_r C bus message (verb_of k) ->
    unit_file_operation C k (manager w) message = Some (r, changes) ->
    r < 0 ->
    exists files,
      handler_of C k bus message w
      = (Normal r,
         add_events w [EvAccessCheck bus (verb_of k); EvInstall files]).
Proof.
  intros C k bus message w r changes Hacc Hop Hr.
  apply Z.ltb_ge in Hacc. apply Z.ltb_lt in Hr.
  destruct k; simpl in Hacc, Hop |- *;
    unfold method_enable_unit_files, method_reenable_unit_files,
      method_link_unit_files, method_preset_unit_files,
      method_mask_unit_files, method_disable_unit_files,
      method_unmask_unit_files, method_set_default_target,
      method_enable_unit_files_generic, method_disable_unit_files_generic,
      operation_force, operation_plain, operation_set_default in *;
    unfold bind at 1; unfold selinux_access_check, bind, record, ret; cbn;
    rewrite Hacc;
    repeat match goal with
           | H : context [let '(_, _) := ?p in _] |- _ =>
               first [ destruct p as [[[? ?] ?] ?] | destruct p as [[? ?] ?] ]
           | H : context [if ?b then _ else _] |- _ =>
               destruct b; [discriminate H|]
           end;
    injection Hop as Hop; unfold get_manager; cbn; rewrite Hop, Hr;
    eexists; unfold add_events; cbn; rewrite <- app_assoc; reflexivity.
Qed.

Lemma unit_file_failure_is_returned_witness :
  method_enable_unit_files install_fails 1%nat enable_call subscribed_world
  = (Normal (-2),
     add_events subscribed_world
       [EvAccessCheck 1%nat "enable"; EvInstall ["foo.service"]]).
Proof.
  destruct (unit_file_failure_is_returned install_fails EnableUnitFiles
              1%nat enable_call subscribed_world (-2) [])
    as [files H].
  - simpl; lia.
  - reflexivity.
  - lia.
  - change (handler_of install_fails EnableUnitFiles)
      with (method_enable_unit_files install_fails) in H.
    rewrite H. vm_compute in H. injection H as H. now subst files.
Defined.

(** ** Properties read from the bus *)

Lemma listed_and_aliases (entries : list (string * Unit)) :
  (List.length (listed entries) + List.length (alias_entries entries)
   = List.length entries)%nat.
Proof.
  unfold listed, alias_entries. rewrite length_map.
  induction entries as [|e entries IH]; simpl; [reflexivity|].
  destruct (String.eqb (fst e) (id (snd e))); simpl; lia.
Qed.

(** X13.  NNames counts names, not units: as long as the count fits 32
    bits, the number it reports is the number of units ListUnits lists
    plus the number of alias entries of the unit hashmap, so it is never
    below the length of the ListUnits array and exceeds it as soon as a
    unit has an alias.  The getter changes nothing. *)
Theorem n_names_counts_aliases :
  forall (C : Collaborators) (reply : out_message) (w : World),
    set_size (units (manager w)) < UINT32_MAX_plus_1 ->
    property_get_n_names C reply w
    = (Normal
         (sd_bus_message_append C reply
            [VUint32
               (Z.of_nat (List.length (listed (units (manager w))))
                + Z.of_nat (List.length (alias_entries (units (manager w)))))]),
       w).
Proof.
  intros C reply w Hfit.
  unfold property_get_n_names, bind, get_manager, ret.
  rewrite Z.mod_small by (unfold set_size in *; lia).
  unfold set_size. rewrite <- (listed_and_aliases (units (manager w))).
  now rewrite Nat2Z.inj_add.
Qed.

Lemma n_names_counts_aliases_witness :
  property_get_n_names obliging (empty_return plain_call)
    (fresh_world small_registry)
  = (Normal (0, mk_out (MethodReturn plain_call) [VUint32 3] None),
     fresh_world small_registry)
  /\ List.length (listed (units small_registry)) = 2%nat.
Proof.
  split; [|reflexivity].
  rewrite (n_names_counts_aliases obliging (empty_return plain_call)
             (fresh_world small_registry)); [reflexivity|].
  vm_compute. reflexivity.
Defined.

(** X14.  The Tainted string is the list of the taints that are set,
    in the order split-usr, mtab-not-symlink, cgroups-missing,
    local-hwclock, joined by colons: no colon at the end, and the empty
    string when nothing is tainted.  What is written to [buf] before the
    last colon is removed always fits it, final NUL included. *)
Theorem tainted_is_colon_separated :
  forall (taint_usr : bool) (p : TaintProbes),
    tainted_buf taint_usr p = String.concat ":" (taints taint_usr p)
    /\ (String.length (tainted_written taint_usr p) < sizeof_tainted_buf)%nat.
Proof.
  intros taint_usr p. unfold tainted_buf, tainted_written, taints.
  destruct taint_usr;
    destruct (readlink_etc_mtab_r p <? 0);
    destruct (access_proc_cgroups_r p <? 0);
    destruct (0 <? hwclock_is_localtime_r p);
    (split; [reflexivity | vm_compute; lia]).
Qed.

(** ** Handlers that hand the request on *)

(** X15.  KillUnit, ResetFailedUnit and SetUnitProperties only act on a
    unit that is loaded: for a name the registry does not know they
    answer NoSuchUnit, having looked the name up and done nothing else;
    nothing is handed to dbus-unit.c and no access check is made. *)
Theorem unit_handlers_need_loaded_unit :
  forall (C : Collaborators) (D : Delegates) (h : handler),
    In h (unit_handlers C D) ->
    forall (bus : sd_bus) (message : sd_bus_message) (w : World)
           (uname : string) (rest : list bus_value),
      body message = VString uname :: rest ->
      hashmap_get (units (manager w)) uname = None ->
      h bus message w
      = (Normal (- bus_error_name_to_errno C BUS_ERROR_NO_SUCH_UNIT),
         fault w
           (mk_error BUS_ERROR_NO_SUCH_UNIT "Unit %s is not loaded."
              [ArgS uname])
           [EvGetUnit uname]).
Proof.
  intros C D h Hin bus message w uname rest Hbody Hnone.
  destruct Hin as [<-|[<-|[<-|[]]]];
    unfold method_kill_unit, method_reset_failed_unit,
      method_set_unit_properties, sd_bus_message_read_s;
    rewrite Hbody; cbn; run_monad; now rewrite Hnone.
Qed.

Lemma unit_handlers_need_loaded_unit_witness :
  method_kill_unit obliging stub_delegates 1%nat kill_call
    (fresh_world small_registry)
  = (Normal (-2),
     mk_world small_registry
       (Some (mk_error BUS_ERROR_NO_SUCH_UNIT "Unit %s is not loaded."
                [ArgS "ghost.service"]))
       [EvGetUnit "ghost.service"]).
Proof.
  apply (unit_handlers_need_loaded_unit obliging stub_delegates
           (method_kill_unit obliging stub_delegates)
           (or_introl eq_refl) 1%nat kill_call (fresh_world small_registry)
           "ghost.service" [VString "all"] eq_refl eq_refl).
Defined.

(** X16.  StartUnitReplace starts the unit named by its second argument
    only in place of a start job: unless the unit named by the first
    argument is loaded and has a job of type start, it answers NoSuchJob
    after the lookup, and nothing is loaded or queued.  When there is
    such a job it goes on as StartUnit does on the rest of the
    message. *)
Theorem start_unit_replace_needs_start_job :
  forall (C : Collaborators) (D : Delegates) (bus : sd_bus)
         (message : sd_bus_message) (w : World) (old_name : string)
         (rest : list bus_value),
    body message = VString old_name :: rest ->
    (has_start_job (hashmap_get (units (manager w)) old_name) = false ->
     method_start_unit_replace C D bus message w
     = (Normal (- bus_error_name_to_errno C BUS_ERROR_NO_SUCH_JOB),
        fault w
          (mk_error BUS_ERROR_NO_SUCH_JOB "No job queued for unit %s"
             [ArgS old_name])
          [EvGetUnit old_name]))
    /\ (has_start_job (hashmap_get (units (manager w)) old_name) = true ->
        method_start_unit_replace C D bus message w
        = method_start_unit D bus (mk_message (sender message) rest)
            (add_events w [EvGetUnit old_name])).
Proof.
  intros C D bus message w old_name rest Hbody.
  split; intros Hjob;
    unfold method_start_unit_replace, method_start_unit,
      sd_bus_message_read_s;
    rewrite Hbody; cbn; run_monad; now rewrite Hjob.
Qed.

Lemma start_unit_replace_needs_start_job_witness :
  method_start_unit_replace obliging stub_delegates 1%nat replace_call
    (fresh_world start_job_registry)
  = (Normal (-2),
     mk_world start_job_registry
       (Some (mk_error BUS_ERROR_NO_SUCH_JOB "No job queued for unit %s"
                [ArgS "foo.service"]))
       [EvGetUnit "foo.service"]).
Proof.
  apply (start_unit_replace_needs_start_job obliging stub_delegates 1%nat
           replace_call (fresh_world start_job_registry) "foo.service"
           [VString "new.service"; VString "replace"] eq_refl).
  reflexivity.
Defined.

(** X17.  CancelJob touches a job only after two tests: an id the
    manager has no job for is answered with NoSuchJob right after the
    lookup, and when the access check on the job's unit denies, its code
    is returned and the job is not finished; in both cases no reply is
    sent. *)
Theorem cancel_job_leaves_job_alone :
  forall (C : Collaborators) (D : Delegates) (bus : sd_bus)
         (message : sd_bus_message) (w : World) (jid : Z)
         (rest : list bus_value),
    body message = VUint32 jid :: rest ->
    (hashmap_get_u32 (jobs (manager w)) jid = None ->
     method_cancel_job C D bus message w
     = (Normal (- bus_error_name_to_errno C BUS_ERROR_NO_SUCH_JOB),
        fault w
          (mk_error BUS_ERROR_NO_SUCH_JOB "Job %u does not exist." [ArgU jid])
          [EvGetJob jid]))
    /\ (forall j,
          hashmap_get_u32 (jobs (manager w)) jid = Some j ->
          selinux_unit_access_check_r C (job_unit j) bus
            (mk_message (sender message) rest) "stop" < 0 ->
          method_cancel_job C D bus message w
          = (Normal
               (selinux_unit_access_check_r C (job_unit j) bus
                  (mk_message (sender message) rest) "stop"),
             add_events w
               [EvGetJob jid; EvUnitAccessCheck (job_unit j) bus "stop"])).
Proof.
  intros C D bus message w jid rest Hbody.
  split; [intros Hj | intros j Hj Hden];
    unfold method_cancel_job, sd_bus_message_read_u;
    rewrite Hbody; cbn; run_monad; rewrite Hj; cbn.
  - reflexivity.
  - apply Z.ltb_lt in Hden. rewrite Hden. now rewrite <- app_assoc.
Qed.

Lemma cancel_job_leaves_job_alone_witness :
  method_cancel_job refusing stub_delegates 1%nat job_call
    (fresh_world small_registry)
  = (Normal (-13),
     mk_world small_registry None
       [EvGetJob 7; EvUnitAccessCheck "foo.service" 1%nat "stop"])
  /\ method_cancel_job refusing stub_delegates 1%nat
       (mk_message ":1.9" [VUint32 8]) (fresh_world small_registry)
     = (Normal (-2),
        mk_world small_registry
          (Some (mk_error BUS_ERROR_NO_SUCH_JOB "Job %u does not exist."
                   [ArgU 8]))
          [EvGetJob 8]).
Proof.
  split.
  - apply (proj2 (cancel_job_leaves_job_alone refusing stub_delegates 1%nat
                    job_call (fresh_world small_registry) 7 [] eq_refl)
             (mk_job 7 JOB_RESTART "foo.service") eq_refl).
    simpl; lia.
  - apply (proj1 (cancel_job_leaves_job_alone refusing stub_delegates 1%nat
                    (mk_message ":1.9" [VUint32 8])
                    (fresh_world small_registry) 8 [] eq_refl)).
    reflexivity.
Defined.

(** X18.  The environment methods validate before they change anything:
    assignments that [strv_env_is_valid] rejects, or names that
    [strv_env_name_or_assignment_is_valid] rejects, are answered with
    InvalidArguments and [manager_environment_add] is not run, so the
    environment keeps every variable.  UnsetAndSetEnvironment reads the
    first array of the message as the assignments and the second as the
    names, and tests both before it applies either. *)
Theorem environment_is_validated_first :
  forall (C : Collaborators) (D : Delegates) (bus : sd_bus)
         (message : sd_bus_message) (w : World),
    0 <= selinux_access_check_r C bus message "reload" ->
    let refused (text : string) :=
      (Normal (- bus_error_name_to_errno C SD_BUS_ERROR_INVALID_ARGS),
       fault w (mk_error SD_BUS_ERROR_INVALID_ARGS text [])
         [EvAccessCheck bus "reload"]) in
    (forall l rest,
       body message = VStrv l :: rest ->
       (strv_env_is_valid D l = false ->
        method_set_environment C D bus message w
        = refused "Invalid environment assignments")
       /\ (strv_env_name_or_assignment_is_valid D l = false ->
           method_unset_environment C D bus message w
           = refused "Invalid environment variable names or assignments"))
    /\ (forall first second rest,
          body message = VStrv first :: VStrv second :: rest ->
          (strv_env_is_valid D first = false ->
           method_unset_and_set_environment C D bus message w
           = refused "Invalid environment assignments")
          /\ (strv_env_is_valid D first = true ->
              strv_env_name_or_assignment_is_valid D second = false ->
              method_unset_and_set_environment C D bus message w
              = refused "Invalid environment variable names or assignments")).
Proof.
  intros C D bus message w Hacc refused. subst refused.
  apply Z.ltb_ge in Hacc.
  split; [intros l rest Hbody | intros a b rest Hbody]; split.
  - intros Hv. unfold method_set_environment, sd_bus_message_read_strv.
    run_monad. rewrite Hacc; cbn. rewrite Hbody; cbn. now rewrite Hv.
  - intros Hv. unfold method_unset_environment, sd_bus_message_read_strv.
    run_monad. rewrite Hacc; cbn. rewrite Hbody; cbn. now rewrite Hv.
  - intros Hv.
    unfold method_unset_and_set_environment, sd_bus_message_read_strv.
    run_monad. rewrite Hacc; cbn. rewrite Hbody; cbn. now rewrite Hv.
  - intros Hv Hn.
    unfold method_unset_and_set_environment, sd_bus_message_read_strv.
    run_monad. rewrite Hacc; cbn. rewrite Hbody; cbn. now rewrite Hv, Hn.
Qed.

Lemma environment_is_validated_first_witness :
  method_unset_and_set_environment obliging stub_delegates 1%nat
    environment_call subscribed_world
  = (Normal (-22),
     fault subscribed_world
       (mk_error SD_BUS_ERROR_INVALID_ARGS "Invalid environment assignments" [])
       [EvAccessCheck 1%nat "reload"]).
Proof.
  destruct (environment_is_validated_first obliging stub_delegates 1%nat
              environment_call subscribed_world ltac:(simpl; lia))
    as [_ H].
  destruct (H ["A=1"; ""] ["B"] [] eq_refl) as [H1 _].
  apply H1. reflexivity.
Defined.

(** X19.  ClearJobs, ResetFailed, ListJobs and the three environment
    methods start with the coarse access check, ClearJobs under the verb
    reboot: when it denies, its code is returned and the check is all
    that has happened; the manager is as it was and nothing was handed
    on. *)
Theorem more_handlers_stop_when_denied :
  forall (C : Collaborators) (D : Delegates) (h : handler) (verb : string),
    In (h, verb) (more_checked_handlers C D) ->
    forall (bus : sd_bus) (message : sd_bus_message) (w : World),
      selinux_access_check_r C bus message verb < 0 ->
      h bus message w
      = (Normal (selinux_access_check_r C bus message verb),
         add_events w [EvAccessCheck bus verb]).
Proof.
  intros C D h verb Hin bus message w Hden. apply Z.ltb_lt in Hden.
  simpl in Hin.
  destruct Hin as [E|[E|[E|[E|[E|[E|[]]]]]]]; inversion E; subst; clear E;
    unfold method_clear_jobs, method_reset_failed, method_list_jobs,
      method_set_environment, method_unset_environment,
      method_unset_and_set_environment;
    unfold bind at 1; unfold selinux_access_check, bind, record, ret; cbn;
    now rewrite Hden.
Qed.

Lemma more_handlers_stop_when_denied_witness :
  method_clear_jobs refusing stub_delegates 1%nat plain_call
    (fresh_world small_registry)
  = (Normal (-13),
     mk_world small_registry None [EvAccessCheck 1%nat "reboot"]).
Proof.
  apply (more_handlers_stop_when_denied refusing stub_delegates
           (method_clear_jobs refusing stub_delegates) "reboot"
           (or_introl eq_refl) 1%nat plain_call (fresh_world small_registry)).
  simpl; lia.
Defined.

(** ** ListJobs *)




(** ** Reloading and StartupFinished *)

Lemma send_reloading_frame (C : Collaborators) (active : bool) :
  forall b d w,
    send_reloading C active b d w
    = (Normal (signal_result C "Reloading" [VBool active] b d),
       add_events w (signal_events C "Reloading" [VBool active] b d)).
Proof.
  intros b d w.
  unfold send_reloading, sd_bus_message_new_signal, sd_bus_message_append,
    signal_result, signal_events; cbn.
  destruct (sd_bus_message_new_signal_r C b "Reloading" <? 0).
  { unfold ret. now rewrite add_events_nil. }
  match goal with
  | |- context [if ?c then (?r, _) else _] => destruct c eqn:E
  end; cbn; rewrite ?E.
  - unfold ret. now rewrite add_events_nil.
  - reflexivity.
Qed.

Lemma send_finished_frame (C : Collaborators) (times : list Z) :
  forall b d w,
    send_finished C times b d w
    = (Normal (signal_result C "StartupFinished" (map VUint64 times) b d),
       add_events w
         (signal_events C "StartupFinished" (map VUint64 times) b d)).
Proof.
  intros b d w.
  unfold send_finished, sd_bus_message_new_signal, sd_bus_message_append,
    signal_result, signal_events; cbn.
  destruct (sd_bus_message_new_signal_r C b "StartupFinished" <? 0).
  { unfold ret. now rewrite add_events_nil. }
  match goal with
  | |- context [if ?c then (?r, _) else _] => destruct c eqn:E
  end; cbn; rewrite ?E.
  - unfold ret. now rewrite add_events_nil.
  - reflexivity.
Qed.

Lemma signal_events_unless_built (C : Collaborators) (member : string)
    (args : list bus_value) (b : sd_bus) (d : option string) :
  signal_is_built C member args b = false ->
  signal_events C member args b d = [].
Proof.
  unfold signal_is_built, signal_events.
  destruct (sd_bus_message_new_signal_r C b member <? 0); [reflexivity|].
  destruct (sd_bus_message_append_r C _ args <? 0); [reflexivity|].
  discriminate.
Qed.

Lemma signal_events_are_sends (C : Collaborators) (member : string)
    (args : list bus_value) (E : list event) :
  (forall e, In e E -> exists b d, In e (signal_events C member args b d)) ->
  exists targets,
    E = map (fun t => EvSend (fst t) (snd t)
                        (mk_out (Signal "/org/freedesktop/systemd1"
                                   "org.freedesktop.systemd1.Manager" member)
                           args None))
          targets
    /\ Forall (fun t => signal_is_built C member args (fst t) = true) targets.
Proof.
  induction E as [|e E IH]; intros HE.
  - exists []. split; [reflexivity | constructor].
  - destruct IH as [ts [-> Hts]]; [intros; apply HE; now right|].
    destruct (HE e (or_introl eq_refl)) as [b [d Hin]].
    destruct (signal_is_built C member args b) eqn:Hb.
    + pose proof Hb as Hbuilt.
      unfold signal_is_built in Hb. unfold signal_events in Hin.
      destruct (sd_bus_message_new_signal_r C b member <? 0);
        [discriminate Hb|].
      destruct (sd_bus_message_append_r C _ args <? 0); [discriminate Hb|].
      destruct Hin as [<-|[]].
      exists ((b, d) :: ts). split; [reflexivity|].
      constructor; assumption.
    + rewrite (signal_events_unless_built C member args b d Hb) in Hin.
      destruct Hin.
Qed.

(** X21.  The Reloading and StartupFinished fan-outs never send a
    signal that is not whole.  A connection for which the signal cannot
    be created or filled gets nothing: the callback leaves the world as
    it was.  Every message that goes out is the signal with its
    argument, the flag for Reloading and the six times for
    StartupFinished, and goes to a connection for which it was built.
    Both fan-outs always return and leave the manager as it was. *)
Theorem signals_are_sent_whole :
  forall (C : Collaborators) (w : World),
    (forall active,
       (forall b d,
          signal_is_built C "Reloading" [VBool active] b = false ->
          snd (send_reloading C active b d w) = w)
       /\ exists r targets,
            bus_manager_send_reloading C active w
            = (Normal r,
               add_events w
                 (map (fun t =>
                         EvSend (fst t) (snd t) (reloading_signal active))
                    targets))
            /\ Forall
                 (fun t =>
                    signal_is_built C "Reloading" [VBool active] (fst t)
                    = true)
                 targets)
    /\ (forall firmware loader kernel initrd userspace total,
          let times :=
            [firmware; loader; kernel; initrd; userspace; total] in
          (forall b d,
             signal_is_built C "StartupFinished" (map VUint64 times) b
             = false ->
             snd (send_finished C times b d w) = w)
          /\ exists r targets,
               bus_manager_send_finished C firmware loader kernel initrd
                 userspace total w
               = (Normal r,
                  add_events w
                    (map (fun t =>
                            EvSend (fst t) (snd t) (finished_signal times))
                       targets))
               /\ Forall
                    (fun t =>
                       signal_is_built C "StartupFinished"
                         (map VUint64 times) (fst t)
                       = true)
                    targets).
Proof.
  intros C w. split.
  - intros active. split.
    + intros b d Hb. rewrite send_reloading_frame.
      rewrite (signal_events_unless_built C _ _ b d Hb).
      apply add_events_nil.
    + destruct (foreach_client_frame (send_reloading C active) _ _
                  (send_reloading_frame C active) (manager w))
        as [r [E [Hrun HE]]].
      destruct (signal_events_are_sends C _ _ E HE) as [targets [-> Hts]].
      exists r, targets. split; [now apply Hrun | assumption].
  - intros firmware loader kernel initrd userspace total times. split.
    + intros b d Hb. rewrite send_finished_frame.
      rewrite (signal_events_unless_built C _ _ b d Hb).
      apply add_events_nil.
    + destruct (foreach_client_frame (send_finished C times) _ _
                  (send_finished_frame C _) (manager w))
        as [r [E [Hrun HE]]].
      destruct (signal_events_are_sends C _ _ E HE) as [targets [-> Hts]].
      exists r, targets. split; [now apply Hrun | assumption].
Qed.

Lemma signals_are_sent_whole_witness :
  snd (send_reloading no_signal_for_2 true 2%nat None subscribed_world)
  = subscribed_world
  /\ exists r targets,
       bus_manager_send_reloading no_signal_for_2 true
         (fresh_world
            (idle_manager SYSTEMD_SYSTEM two_subscribers [1; 2]%nat None))
       = (Normal r,
          add_events
            (fresh_world
               (idle_manager SYSTEMD_SYSTEM two_subscribers [1; 2]%nat None))
            (map (fun t => EvSend (fst t) (snd t) (reloading_signal true))
               targets))
       /\ Forall (fun t => fst t <> 2%nat) targets.
Proof.
  split.
  - apply (proj1 (proj1 (signals_are_sent_whole no_signal_for_2
                           subscribed_world) true)).
    reflexivity.
  - destruct (proj2 (proj1 (signals_are_sent_whole no_signal_for_2
                              (fresh_world
                                 (idle_manager SYSTEMD_SYSTEM two_subscribers
                                    [1; 2]%nat None))) true))
      as [r [targets [Hrun Hbuilt]]].
    exists r, targets. split; [exact Hrun|].
    eapply Forall_impl; [|exact Hbuilt].
    intros [b d] Hb Heq. simpl in Hb, Heq. subst b. discriminate Hb.
Defined.

(** ** ListUnits and ListJobs under allocation failure *)

Lemma list_units_foreach_all_or_nothing (C : Collaborators) :
  forall entries k body items,
    (fst (list_units_foreach C entries (mk_out k body (Some items))) <? 0)
    = true
    \/ list_units_foreach C entries (mk_out k body (Some items))
       = (0, mk_out k body
               (Some (items ++ map (unit_row C) (listed entries)))).
Proof.
  induction entries as [|[key u] entries IH]; intros k body items.
  - right. simpl. now rewrite app_nil_r.
  - simpl. unfold listed; simpl.
    destruct (String.eqb key (id u)) eqn:E; simpl; [|apply IH].
    unfold unit_row at 1.
    destruct (unit_dbus_path C u) as [p|]; [|now left].
    destruct (job u) as [j|].
    + destruct (job_dbus_path C j) as [jp|]; [|now left].
      unfold sd_bus_message_append; cbn.
      destruct (sd_bus_message_append_r C _ _ <? 0) eqn:Ha; cbn;
        rewrite ?Ha; [now left|].
      destruct (IH k body (items ++ [unit_tuple C u p (Some jp)]))
        as [Hneg|Hrun]; [now left|].
      right. rewrite Hrun. unfold listed. now rewrite <- app_assoc.
    + unfold sd_bus_message_append; cbn.
      destruct (sd_bus_message_append_r C _ _ <? 0) eqn:Ha; cbn;
        rewrite ?Ha; [now left|].
      destruct (IH k body (items ++ [unit_tuple C u p None]))
        as [Hneg|Hrun]; [now left|].
      right. rewrite Hrun. unfold listed. now rewrite <- app_assoc.
Qed.

(** X22.  ListUnits sends the whole list or nothing: whatever fails on
    the way, a denied access check, a path or a tuple that cannot be
    allocated, the only message the handler ever sends is the method
    return with the tuples of all listed units, and when it does not send
    that, it sends nothing at all. *)
Theorem list_units_all_or_nothing :
  forall (C : Collaborators) (bus : sd_bus) (message : sd_bus_message)
         (w : World),
    let reply :=
      mk_out (MethodReturn message)
        [VArray (map (unit_row C) (listed (units (manager w))))] None in
    snd (method_list_units C bus message w)
    = add_events w [EvAccessCheck bus "status"]
    \/ snd (method_list_units C bus message w)
       = add_events w [EvAccessCheck bus "status"; EvSend bus None reply].
Proof.
  intros C bus message w reply. subst reply.
  unfold method_list_units, sd_bus_message_new_method_return,
    sd_bus_message_open_container, sd_bus_message_close_container.
  run_monad.
  destruct (selinux_access_check_r C bus message "status" <? 0); cbn;
    [now left|].
  destruct (sd_bus_message_new_method_return_r C message <? 0); cbn;
    [now left|].
  destruct (sd_bus_message_open_container_r C _ _ <? 0) eqn:Ho; cbn;
    rewrite ?Ho; cbn; [now left|].
  destruct (list_units_foreach_all_or_nothing C (units (manager w))
              (MethodReturn message) [] []) as [Hneg|Hrun].
  - destruct (list_units_foreach C (units (manager w)) _) as [r reply'].
    simpl in Hneg. rewrite Hneg. now left.
  - rewrite Hrun; cbn.
    destruct (sd_bus_message_close_container_r C _ <? 0) eqn:Hc; cbn;
      rewrite ?Hc; cbn; [now left|].
    right. now rewrite <- app_assoc.
Qed.
